(** * LankaWeather: request orchestration and forecast normalisation

    A shallow embedding of the three screens of the repository

      - [Root]    : src/app/index.tsx          (the current screen)
      - [Part000] : src/unnamed/part_000       (intermediate version)
      - [Tabs]    : src/app/(tabs)/index.tsx   (first version)

    together with the pure helpers they share.  Only the orchestration code
    is embedded (fetchData, loadInitialWeather, onRefresh, handleSearch,
    the branch structure of renderContent, getWeatherIcon,
    getAdvancedGradient); layout, styles and animations are left out. *)

From Stdlib Require Import Bool Arith List String Ascii NArith ZArith QArith Lia.
Import ListNotations.
Local Open Scope string_scope.

Set Implicit Arguments.
Set Warnings "-register-all".

(* ------------------------------------------------------------------ *)
(** ** JavaScript values as they reach the screen *)

(** Response bodies are what axios hands over after JSON parsing: the code
    receives them as [any].  Numbers only flow through the orchestration
    code (coordinates, temperatures) or are tested for truthiness, so a
    rational stands for them. *)
Inductive JsVal : Type :=
| JUndefined
| JNull
| JBool (b : bool)
| JNum (q : Q)
| JStr (s : string)
| JArr (items : list JsVal)
| JObj (fields : list (string * JsVal)).   (* own properties, each key once *)

(** A computation that may raise (a TypeError here, or a rejected promise
    that was awaited). *)
Inductive Outcome (A : Type) : Type :=
| Ok (a : A)
| Throw.
Arguments Ok {A} a.
Arguments Throw {A}.

(** ToBoolean. *)
Definition truthy (v : JsVal) : bool :=
  match v with
  | JUndefined | JNull => false
  | JBool b => b
  | JNum q => negb (Qeq_bool q 0)
  | JStr s => negb (s =? "")
  | JArr _ | JObj _ => true
  end.

Definition truthy_str (s : option string) : bool :=
  match s with
  | Some t => negb (t =? "")
  | None => false
  end.

Fixpoint assoc {A : Type} (k : string) (fs : list (string * A)) : option A :=
  match fs with
  | [] => None
  | (k', v) :: rest => if k' =? k then Some v else assoc k rest
  end.

(** [v.k] for the data properties the screens read ([list], [dt_txt],
    [name]); none of them exists on a prototype.  Reading a property of
    undefined or null raises. *)
Definition get_prop (v : JsVal) (k : string) : Outcome JsVal :=
  match v with
  | JUndefined | JNull => Throw
  | JObj fs => match assoc k fs with Some x => Ok x | None => Ok JUndefined end
  | JBool _ | JNum _ | JStr _ | JArr _ => Ok JUndefined
  end.

(* ------------------------------------------------------------------ *)
(** ** Strings *)

Fixpoint starts_with (pat s : string) : bool :=
  match pat, s with
  | EmptyString, _ => true
  | String _ _, EmptyString => false
  | String p pat', String c s' => Ascii.eqb p c && starts_with pat' s'
  end.

(** String.prototype.includes: some position of [s] starts with [pat]. *)
Fixpoint str_includes (s pat : string) : bool :=
  starts_with pat s ||
  match s with
  | EmptyString => false
  | String _ s' => str_includes s' pat
  end.

Definition js_val_is_str (pat : string) (v : JsVal) : bool :=
  match v with
  | JStr s => s =? pat
  | _ => false
  end.

(** [d.includes(pat)] as a method call on an arbitrary value: strings and
    arrays have the method, a parsed JSON object cannot hold a callable,
    and everything else has no such property. *)
Definition js_includes (d : JsVal) (pat : string) : Outcome bool :=
  match d with
  | JStr s => Ok (str_includes s pat)
  | JArr l => Ok (existsb (js_val_is_str pat) l)
  | JUndefined | JNull | JBool _ | JNum _ | JObj _ => Throw
  end.

(** Array.prototype.filter with a callback that may raise: elements are
    visited from index 0 upwards, the first exception aborts the call. *)
Fixpoint array_filter (cb : JsVal -> Outcome bool) (l : list JsVal)
  : Outcome (list JsVal) :=
  match l with
  | [] => Ok []
  | x :: rest =>
      match cb x with
      | Throw => Throw
      | Ok keep =>
          match array_filter cb rest with
          | Throw => Throw
          | Ok kept => Ok (if keep then x :: kept else kept)
          end
      end
  end.

(** [v.filter(cb)]: only arrays have the method. *)
Definition js_filter (v : JsVal) (cb : JsVal -> Outcome bool)
  : Outcome (list JsVal) :=
  match v with
  | JArr l => array_filter cb l
  | _ => Throw
  end.

(** The callback of the noon-sample step:
    [(item) => item.dt_txt.includes("12:00:00")]. *)
Definition isNoonItem (item : JsVal) : Outcome bool :=
  match get_prop item "dt_txt" with
  | Throw => Throw
  | Ok d => js_includes d "12:00:00"
  end.

(** [forecastResponse.data.list.filter(...)], from the response body. *)
Definition dailyForecasts (data : JsVal) : Outcome (list JsVal) :=
  match get_prop data "list" with
  | Throw => Throw
  | Ok lst => js_filter lst isNoonItem
  end.

(** An entry that has the shape the [ForecastItem] interface declares as
    far as the orchestration reads it: an object whose [dt_txt] is a
    string. *)
Definition dt_txt_of (item : JsVal) : option string :=
  match item with
  | JObj fs => match assoc "dt_txt" fs with Some (JStr s) => Some s | _ => None end
  | _ => None
  end.

Definition isForecastItem (item : JsVal) : bool :=
  match dt_txt_of item with Some _ => true | None => false end.

(** The test of the noon-sample step on such an entry. *)
Definition noon (item : JsVal) : bool :=
  match dt_txt_of item with
  | Some s => str_includes s "12:00:00"
  | None => false
  end.

(** The provider's timestamp layout, [YYYY-MM-DD HH:MM:SS]. *)
Definition is_digit (c : ascii) : bool :=
  let n := nat_of_ascii c in (48 <=? n)%nat && (n <=? 57)%nat.

Fixpoint matches_layout (layout s : string) : bool :=
  match layout, s with
  | EmptyString, EmptyString => true
  | String l layout', String c s' =>
      (if Ascii.eqb l "d" then is_digit c else Ascii.eqb l c)
      && matches_layout layout' s'
  | _, _ => false
  end.

Definition provider_timestamp (s : string) : bool :=
  matches_layout "dddd-dd-dd dd:dd:dd" s.

(** The time-of-day field of a timestamp in that layout. *)
Definition time_of_day (s : string) : string := substring 11 8 s.

(** Order-preserving sub-sequence: [sublist out l] when [out] is obtained
    from [l] by deleting entries. *)
Inductive sublist {A : Type} : list A -> list A -> Prop :=
| sublist_nil : sublist [] []
| sublist_skip : forall x out l, sublist out l -> sublist out (x :: l)
| sublist_keep : forall x out l, sublist out l -> sublist (x :: out) (x :: l).

(** *** String.prototype.trim

    Strings are held in UTF-8.  [trim] removes the code points of the
    WhiteSpace and LineTerminator productions from both ends:
    U+0009..U+000D, U+0020, U+00A0, U+1680, U+2000..U+200A, U+2028,
    U+2029, U+202F, U+205F, U+3000 and U+FEFF. *)
Definition byte_at (s : string) (i : nat) : N :=
  match get i s with
  | Some c => N_of_ascii c
  | None => 256%N
  end.

(** Number of bytes of the white-space code point [s] starts with, 0 when
    it starts with none. *)
Definition ws_prefix_len (s : string) : nat :=
  let b0 := byte_at s 0 in
  let b1 := byte_at s 1 in
  let b2 := byte_at s 2 in
  if (((9 <=? b0) && (b0 <=? 13)) || (b0 =? 32))%N then 1
  else if ((b0 =? 194) && (b1 =? 160))%N then 2
  else if ((b0 =? 225) && (b1 =? 154) && (b2 =? 128))%N then 3
  else if ((b0 =? 226) && (b1 =? 128)
           && (((128 <=? b2) && (b2 <=? 138))
               || (b2 =? 168) || (b2 =? 169) || (b2 =? 175)))%N then 3
  else if ((b0 =? 226) && (b1 =? 129) && (b2 =? 159))%N then 3
  else if ((b0 =? 227) && (b1 =? 128) && (b2 =? 128))%N then 3
  else if ((b0 =? 239) && (b1 =? 187) && (b2 =? 191))%N then 3
  else 0.

Fixpoint drop (n : nat) (s : string) : string :=
  match n, s with
  | O, _ => s
  | S _, EmptyString => EmptyString
  | S n', String _ s' => drop n' s'
  end.

Fixpoint trimStart_fuel (fuel : nat) (s : string) : string :=
  match fuel with
  | O => s
  | S fuel' =>
      match ws_prefix_len s with
      | O => s
      | S n => trimStart_fuel fuel' (drop (S n) s)
      end
  end.

Definition trimStart (s : string) : string := trimStart_fuel (length s) s.

Definition all_white (s : string) : bool := trimStart s =? "".

Fixpoint trimEnd (s : string) : string :=
  match s with
  | EmptyString => EmptyString
  | String c s' => if all_white s then EmptyString else String c (trimEnd s')
  end.

Definition trim (s : string) : string := trimEnd (trimStart s).

(* ------------------------------------------------------------------ *)
(** ** Lookup tables of src/app/index.tsx *)

(** The tables are plain object literals read with [table[key]], so a key
    that is not an own property is looked up on Object.prototype. *)
Definition object_prototype_names : list string :=
  [ "constructor"; "hasOwnProperty"; "isPrototypeOf"; "propertyIsEnumerable";
    "toLocaleString"; "toString"; "valueOf"; "__proto__";
    "__defineGetter__"; "__defineSetter__";
    "__lookupGetter__"; "__lookupSetter__" ].

Definition on_object_prototype (k : string) : bool :=
  existsb (String.eqb k) object_prototype_names.

Inductive Lookup (A : Type) : Type :=
| Own (a : A)
| Inherited (name : string)
| Missing.
Arguments Own {A} a.
Arguments Inherited {A} name.
Arguments Missing {A}.

Definition obj_lookup {A : Type} (table : list (string * A)) (k : string)
  : Lookup A :=
  match assoc k table with
  | Some a => Own a
  | None => if on_object_prototype k then Inherited k else Missing
  end.

Definition icons : list (string * string) :=
  [
    ("01d", "☀️"); ("01n", "🌙"); ("02d", "⛅");
    ("02n", "☁️"); ("03d", "☁️"); ("03n", "☁️");
    ("04d", "☁️"); ("04n", "☁️"); ("09d", "🌧️");
    ("09n", "🌧️"); ("10d", "🌦️"); ("10n", "🌧️");
    ("11d", "⛈️"); ("11n", "⛈️"); ("13d", "❄️");
    ("13n", "❄️"); ("50d", "🌫️"); ("50n", "🌫️") ].

Definition icon_fallback : string := "🌤️".


(** What [getWeatherIcon] hands back: a symbol, or the built-in member of
    Object.prototype found under the key (a function, or the prototype
    object itself for [__proto__]; all of them truthy). *)
Inductive IconValue : Type :=
| Symbol (s : string)
| Builtin (name : string).

Definition getWeatherIcon (iconCode : string) : IconValue :=
  match obj_lookup icons iconCode with
  | Own s => if negb (s =? "") then Symbol s else Symbol icon_fallback
  | Inherited name => Builtin name
  | Missing => Symbol icon_fallback
  end.

Record Palette : Type := mkPalette { day : list string; night : list string }.

Definition gradients : list (string * Palette) :=
  [ ("Clear",
      mkPalette ["#FF9A8B"; "#A8E6CF"; "#FFD3A5"; "#FD9853"]
                ["#2C3E50"; "#4A6741"; "#34495E"; "#2980B9"]);
    ("Clouds",
      mkPalette ["#BDC3C7"; "#2C3E50"; "#95A5A6"; "#34495E"]
                ["#34495E"; "#2C3E50"; "#7F8C8D"; "#2980B9"]);
    ("Rain",
      mkPalette ["#3A7BD5"; "#00D2FF"; "#667db6"; "#0082c8"]
                ["#2980B9"; "#6BB6FF"; "#1B4F72"; "#2E86AB"]);
    ("Drizzle",
      mkPalette ["#A8E6CF"; "#DCEDC1"; "#B2DFDB"; "#80CBC4"]
                ["#34495E"; "#2C3E50"; "#5DADE2"; "#3498DB"]);
    ("Thunderstorm",
      mkPalette ["#654EA3"; "#EAAFC8"; "#8E44AD"; "#C39BD3"]
                ["#2C3E50"; "#8E44AD"; "#34495E"; "#7D3C98"]);
    ("Snow",
      mkPalette ["#E6E6FA"; "#FAFAFA"; "#D6EAF8"; "#EBF5FB"]
                ["#5DADE2"; "#85C1E9"; "#AED6F1"; "#D6EAF8"]);
    ("Mist",
      mkPalette ["#D5D4D0"; "#D5D4D0"; "#EEEEEE"; "#EFEEEE"]
                ["#7F8C8D"; "#BDC3C7"; "#95A5A6"; "#AEB6BF"]) ].

(** [gradients[weatherMain] || gradients['Clear']], then [.night] or
    [.day].  A table entry is an object (truthy); an inherited built-in is
    truthy too and has neither property, which gives [undefined] ([None]);
    reading a property of [undefined] would raise. *)
Definition getAdvancedGradient (weatherMain : string) (isNight : bool)
  : Outcome (option (list string)) :=
  let colors :=
    match obj_lookup gradients weatherMain with
    | Missing => obj_lookup gradients "Clear"
    | found => found
    end in
  match colors with
  | Own p => Ok (Some (if isNight then night p else day p))
  | Inherited _ => Ok None
  | Missing => Throw
  end.

(* ------------------------------------------------------------------ *)
(** ** The screen state and the world around it *)

(** Query parameters of [fetchData]: [{ q?, lat?, lon? }]. *)
Record Params : Type := mkParams {
  q : option string;
  lat : option Q;
  lon : option Q
}.

Definition by_place (place : string) : Params := mkParams (Some place) None None.
Definition by_coords (latitude longitude : Q) : Params :=
  mkParams None (Some latitude) (Some longitude).

Definition WEATHER_API_URL := "https://api.openweathermap.org/data/2.5/weather".
Definition FORECAST_API_URL := "https://api.openweathermap.org/data/2.5/forecast".

(** One [axios.get(url, { params: { ...params, appid, units } })]. *)
Record Request : Type := mkRequest {
  url : string;
  params : Params;
  appid : option string;
  units : string
}.

Record AxiosResponse : Type := mkResponse { data : JsVal }.

(** How the awaited promise settles; a non-2xx status rejects. *)
Inductive Settled : Type :=
| Fulfilled (response : AxiosResponse)
| Rejected.

(** The provider: what the [n]-th request of the session settles to. *)
Definition Net : Type := nat -> Request -> Settled.

(** The [useState] cells.  [refreshing] exists in [Root] and [Part000],
    [currentCity] in [Part000] only; a screen never touches a cell it does
    not declare. *)
Record AppState : Type := mkState {
  inputCity : string;
  currentCity : JsVal;
  weatherData : JsVal;
  forecastData : option (list JsVal);
  loading : bool;
  error : option string;
  refreshing : bool
}.

(** First render: [useState('')], [useState(null)], [useState(null)],
    [useState(true)], [useState(null)], [useState(false)]. *)
Definition initialState : AppState :=
  mkState "" (JStr "") JNull None true None false.

(** A run of the screen: the current cells, every state written by a
    setter so far in program order (newest first), and the requests issued
    (newest first).  A renderer that batches the setters of one synchronous
    stretch shows the last state of each stretch, a subsequence of
    [hist]. *)
Record Run : Type := mkRun {
  cur : AppState;
  hist : list AppState;
  calls : list Request
}.

Definition startRun : Run := mkRun initialState [] [].

(** Handlers are sequences of setter calls and awaited requests in which
    an exception skips to the enclosing [catch]; state already written
    stays written. *)
Definition M (A : Type) : Type := Run -> Outcome A * Run.

Definition ret {A : Type} (a : A) : M A := fun r => (Ok a, r).

Definition bind {A B : Type} (m : M A) (k : A -> M B) : M B :=
  fun r =>
    match m r with
    | (Ok a, r') => k a r'
    | (Throw, r') => (Throw, r')
    end.

Notation "x <- m ;; k" := (bind m (fun x => k))
  (at level 61, m at next level, right associativity).
Notation "m ;; k" := (bind m (fun _ => k))
  (at level 61, right associativity).

Definition try_catch (body handler : M unit) : M unit :=
  fun r =>
    match body r with
    | (Ok a, r') => (Ok a, r')
    | (Throw, r') => handler r'
    end.

Definition lift {A : Type} (o : Outcome A) : M A := fun r => (o, r).

Definition get_state : M AppState := fun r => (Ok (cur r), r).

Definition commit (f : AppState -> AppState) : M unit :=
  fun r =>
    let s := f (cur r) in
    (Ok tt, mkRun s (s :: hist r) (calls r)).

Definition setInputCity (v : string) : M unit :=
  commit (fun s => mkState v (currentCity s) (weatherData s) (forecastData s)
                           (loading s) (error s) (refreshing s)).
Definition setCurrentCity (v : JsVal) : M unit :=
  commit (fun s => mkState (inputCity s) v (weatherData s) (forecastData s)
                           (loading s) (error s) (refreshing s)).
Definition setWeatherData (v : JsVal) : M unit :=
  commit (fun s => mkState (inputCity s) (currentCity s) v (forecastData s)
                           (loading s) (error s) (refreshing s)).
Definition setForecastData (v : option (list JsVal)) : M unit :=
  commit (fun s => mkState (inputCity s) (currentCity s) (weatherData s) v
                           (loading s) (error s) (refreshing s)).
Definition setLoading (v : bool) : M unit :=
  commit (fun s => mkState (inputCity s) (currentCity s) (weatherData s)
                           (forecastData s) v (error s) (refreshing s)).
Definition setError (v : option string) : M unit :=
  commit (fun s => mkState (inputCity s) (currentCity s) (weatherData s)
                           (forecastData s) (loading s) v (refreshing s)).
Definition setRefreshing (v : bool) : M unit :=
  commit (fun s => mkState (inputCity s) (currentCity s) (weatherData s)
                           (forecastData s) (loading s) (error s) v).

(** [await axios.get(url, { params: { ...params, appid, units: 'metric' } })]:
    the request is logged, a rejection is raised at the [await]. *)
Definition axios_get (net : Net) (u : string) (p : Params)
           (key : option string) : M AxiosResponse :=
  fun r =>
    let req := mkRequest u p key "metric" in
    let r' := mkRun (cur r) (hist r) (req :: calls r) in
    match net (List.length (calls r)) req with
    | Fulfilled response => (Ok response, r')
    | Rejected => (Throw, r')
    end.

(** The promise [axios.get(...)] returns: which request of the session it
    stands for. *)
Record Promise : Type := mkPromise { sent_as : nat; request : Request }.

(** [axios.get(...)] as far as the promise: the request is issued. *)
Definition axios_send (u : string) (p : Params) (key : option string)
  : M Promise :=
  fun r =>
    let req := mkRequest u p key "metric" in
    (Ok (mkPromise (List.length (calls r)) req),
     mkRun (cur r) (hist r) (req :: calls r)).

(** [await] on such a promise: a rejection is raised. *)
Definition await (net : Net) (promise : Promise) : M AxiosResponse :=
  fun r =>
    match net (sent_as promise) (request promise) with
    | Fulfilled response => (Ok response, r)
    | Rejected => (Throw, r)
    end.

(** A call of an async function that is not awaited: what it commits is
    committed, and a rejection of its promise reaches nobody. *)
Definition not_awaited (m : M unit) : M unit := fun r => (Ok tt, snd (m r)).

(** [status] of [Location.requestForegroundPermissionsAsync()]. *)
Inductive PermissionStatus : Type := granted | denied | undetermined.

Definition is_granted (st : PermissionStatus) : bool :=
  match st with granted => true | _ => false end.

(** What the platform answers to one run of the location resolver: how
    [Location.requestForegroundPermissionsAsync()] settles (with a status,
    or rejected) and how [Location.getCurrentPositionAsync({})] settles
    when it is asked (with latitude and longitude, or rejected, as it is
    when the location services are off).  [Ok] is a fulfilled promise,
    [Throw] a rejected one. *)
Record Location : Type := mkLocation {
  permission : Outcome PermissionStatus;
  position : Outcome (Q * Q)
}.

(** The branches of [renderContent], which is the same in the three
    screens: spinner, error text, weather (with the error as a banner when
    there is one), or nothing. *)
Inductive View : Type :=
| Loading
| Failed (message : string)
| Ready (current : JsVal) (daily : option (list JsVal)) (warning : option string)
| Nothing.

Definition renderContent (s : AppState) : View :=
  if loading s then Loading
  else
    match error s with
    | Some message =>
        if negb (message =? "") && negb (truthy (weatherData s)) then Failed message
        else if truthy (weatherData s) then
          Ready (weatherData s) (forecastData s)
                (if negb (message =? "") then Some message else None)
        else Nothing
    | None =>
        if truthy (weatherData s) then Ready (weatherData s) (forecastData s) None
        else Nothing
    end.

(** The expression under [styles.cityName] in the weather branch:
    [{weatherData.name}]. *)
Definition cityName (current : JsVal) : Outcome JsVal := get_prop current "name".

Inductive Kind : Type := KLoading | KFailed | KReady | KNothing.

Definition kind (s : AppState) : Kind :=
  match renderContent s with
  | Loading => KLoading
  | Failed _ => KFailed
  | Ready _ _ _ => KReady
  | Nothing => KNothing
  end.

(** The states committed during a run, oldest first, as presentation
    variants. *)
Definition kinds (r : Run) : list Kind := map kind (rev (hist r)).

(** What the user and the platform do to a mounted screen. *)
Inductive Event : Type :=
| Mount (loc : Location)
| Refresh (loc : Location)
| TypeText (text : string)
| Search.

Definition run_from (r : Run) (m : M unit) : Run := snd (m r).

(** A handler started in state [s] with an empty history, so that [hist]
    and [kinds] show what this handler committed. *)
Definition fresh (s : AppState) (log : list Request) : Run := mkRun s [] log.

(* ------------------------------------------------------------------ *)
(** ** src/app/index.tsx *)

Module Root.
Section Screen.

(** [const API_KEY = OPENWEATHER_API_KEY;] imported from the
    environment: a string, or undefined when the variable is not set. *)
Variable API_KEY : option string.
Variable net : Net.

Definition API_KEY_MISSING :=
  "API Key is missing. Please check your .env file and restart the app.".
Definition FETCH_FAILED :=
  "Could not find weather data. Please try another city.".
Definition PERMISSION_DENIED :=
  "Permission denied. Showing weather for Colombo.".

(** [fetchData] is a closure of one render: [refreshing_seen] is the
    value of the [refreshing] cell in the render that created it. *)
Definition fetchData (refreshing_seen : bool) (params : Params) : M unit :=
  if negb (truthy_str API_KEY) then
    setError (Some API_KEY_MISSING) ;;
    setLoading false
  else
    (if negb refreshing_seen then setLoading true else ret tt) ;;
    setError None ;;
    try_catch
      (weatherResponse <- axios_get net WEATHER_API_URL params API_KEY ;;
       forecastResponse <- axios_get net FORECAST_API_URL params API_KEY ;;
       setWeatherData (data weatherResponse) ;;
       daily <- lift (dailyForecasts (data forecastResponse)) ;;
       setForecastData (Some daily))
      (setError (Some FETCH_FAILED) ;;
       setWeatherData JNull ;;
       setForecastData None) ;;
    setLoading false ;;
    setRefreshing false.

(** The same text cut at its first [await], for a caller that goes on
    after the call.  [fetchData_start] is what the call itself runs: it
    returns at the key test, or issues the current-conditions request and
    suspends on its promise.  [fetchData_rest] is what runs once that
    promise has settled. *)
Definition fetchData_start (refreshing_seen : bool) (params : Params)
  : M (option Promise) :=
  if negb (truthy_str API_KEY) then
    setError (Some API_KEY_MISSING) ;;
    setLoading false ;;
    ret None
  else
    (if negb refreshing_seen then setLoading true else ret tt) ;;
    setError None ;;
    promise <- axios_send WEATHER_API_URL params API_KEY ;;
    ret (Some promise).

Definition fetchData_rest (params : Params) (promise : Promise) : M unit :=
  try_catch
    (weatherResponse <- await net promise ;;
     forecastResponse <- axios_get net FORECAST_API_URL params API_KEY ;;
     setWeatherData (data weatherResponse) ;;
     daily <- lift (dailyForecasts (data forecastResponse)) ;;
     setForecastData (Some daily))
    (setError (Some FETCH_FAILED) ;;
     setWeatherData JNull ;;
     setForecastData None) ;;
  setLoading false ;;
  setRefreshing false.

(** [useCallback(async () => {...}, [])]: the callback of the first
    render is kept for the life of the screen, and with it the
    [fetchData] of the first render, in which [refreshing] is the initial
    [false].  Neither [await] stands in a [try]: when the permission
    request or the position fix is rejected the function stops there. *)
Definition loadInitialWeather (loc : Location) : M unit :=
  status <- lift (permission loc) ;;
  if negb (is_granted status) then
    setError (Some PERMISSION_DENIED) ;;
    fetchData (refreshing initialState) (by_place "Colombo")
  else
    location <- lift (position loc) ;;
    fetchData (refreshing initialState)
              (by_coords (fst location) (snd location)).

Definition onRefresh (loc : Location) : M unit :=
  setRefreshing true ;;
  not_awaited (loadInitialWeather loc).

(** [handleSearch] is rebuilt by every render and calls the [fetchData]
    of that render without awaiting it: [setInputCity('')] runs as soon as
    [fetchData] has returned or suspended, and the rest of [fetchData]
    after that. *)
Definition handleSearch : M unit :=
  s <- get_state ;;
  if negb (trim (inputCity s) =? "") then
    suspended <- fetchData_start (refreshing s) (by_place (trim (inputCity s))) ;;
    setInputCity "" ;;
    match suspended with
    | Some promise => fetchData_rest (by_place (trim (inputCity s))) promise
    | None => ret tt
    end
  else ret tt.

Definition handle (e : Event) : M unit :=
  match e with
  | Mount loc => not_awaited (loadInitialWeather loc)
  | Refresh loc => onRefresh loc
  | TypeText text => setInputCity text
  | Search => handleSearch
  end.

(** The run after a sequence of events on the freshly mounted screen, each
    handled to its end, awaits included, before the next one arrives.
    Events that arrive while an attempt is suspended are the subject of
    [Loop] below. *)
Definition after (evs : list Event) : Run :=
  fold_left (fun r e => run_from r (handle e)) evs startRun.

End Screen.
End Root.

(* ------------------------------------------------------------------ *)
(** ** src/unnamed/part_000 *)

Module Part000.
Section Screen.

Variable API_KEY : option string.
Variable net : Net.

Definition FETCH_FAILED :=
  "Could not find weather data. Please try another city.".
Definition PERMISSION_DENIED :=
  "Permission denied. Showing weather for Colombo.".

Definition fetchData (refreshing_seen : bool) (params : Params) : M unit :=
  (if negb refreshing_seen then setLoading true else ret tt) ;;
  setError None ;;
  try_catch
    (weatherResponse <- axios_get net WEATHER_API_URL params API_KEY ;;
     forecastResponse <- axios_get net FORECAST_API_URL params API_KEY ;;
     setWeatherData (data weatherResponse) ;;
     name <- lift (get_prop (data weatherResponse) "name") ;;
     setCurrentCity name ;;
     daily <- lift (dailyForecasts (data forecastResponse)) ;;
     setForecastData (Some daily))
    (setError (Some FETCH_FAILED) ;;
     setWeatherData JNull ;;
     setForecastData None) ;;
  setLoading false ;;
  setRefreshing false.

(** The same text cut at its first [await]. *)
Definition fetchData_start (refreshing_seen : bool) (params : Params)
  : M Promise :=
  (if negb refreshing_seen then setLoading true else ret tt) ;;
  setError None ;;
  axios_send WEATHER_API_URL params API_KEY.

Definition fetchData_rest (params : Params) (promise : Promise) : M unit :=
  try_catch
    (weatherResponse <- await net promise ;;
     forecastResponse <- axios_get net FORECAST_API_URL params API_KEY ;;
     setWeatherData (data weatherResponse) ;;
     name <- lift (get_prop (data weatherResponse) "name") ;;
     setCurrentCity name ;;
     daily <- lift (dailyForecasts (data forecastResponse)) ;;
     setForecastData (Some daily))
    (setError (Some FETCH_FAILED) ;;
     setWeatherData JNull ;;
     setForecastData None) ;;
  setLoading false ;;
  setRefreshing false.

Definition loadInitialWeather (loc : Location) : M unit :=
  status <- lift (permission loc) ;;
  if negb (is_granted status) then
    setError (Some PERMISSION_DENIED) ;;
    fetchData (refreshing initialState) (by_place "Colombo")
  else
    location <- lift (position loc) ;;
    fetchData (refreshing initialState)
              (by_coords (fst location) (snd location)).

Definition onRefresh (loc : Location) : M unit :=
  setRefreshing true ;;
  not_awaited (loadInitialWeather loc).

Definition handleSearch : M unit :=
  s <- get_state ;;
  if negb (trim (inputCity s) =? "") then
    promise <- fetchData_start (refreshing s) (by_place (trim (inputCity s))) ;;
    setInputCity "" ;;
    fetchData_rest (by_place (trim (inputCity s))) promise
  else ret tt.

End Screen.
End Part000.

(* ------------------------------------------------------------------ *)
(** ** src/app/(tabs)/index.tsx *)

Module Tabs.
Section Screen.

Variable net : Net.

(** The key is a string literal of the file. *)
Definition API_KEY : option string := Some "2e221da48bd09743f58871e71ff38f25".

Definition FETCH_FAILED :=
  "Could not find weather data. Please check the city name or your network connection.".
Definition PERMISSION_DENIED :=
  "Permission to access location was denied. Showing weather for Colombo.".

Definition fetchData (params : Params) : M unit :=
  setLoading true ;;
  setError None ;;
  try_catch
    (weatherResponse <- axios_get net WEATHER_API_URL params API_KEY ;;
     forecastResponse <- axios_get net FORECAST_API_URL params API_KEY ;;
     setWeatherData (data weatherResponse) ;;
     daily <- lift (dailyForecasts (data forecastResponse)) ;;
     setForecastData (Some daily))
    (setError (Some FETCH_FAILED) ;;
     setWeatherData JNull ;;
     setForecastData None) ;;
  setLoading false.

(** The same text cut at its first [await]. *)
Definition fetchData_start (params : Params) : M Promise :=
  setLoading true ;;
  setError None ;;
  axios_send WEATHER_API_URL params API_KEY.

Definition fetchData_rest (params : Params) (promise : Promise) : M unit :=
  try_catch
    (weatherResponse <- await net promise ;;
     forecastResponse <- axios_get net FORECAST_API_URL params API_KEY ;;
     setWeatherData (data weatherResponse) ;;
     daily <- lift (dailyForecasts (data forecastResponse)) ;;
     setForecastData (Some daily))
    (setError (Some FETCH_FAILED) ;;
     setWeatherData JNull ;;
     setForecastData None) ;;
  setLoading false.

(** The body of the mount effect, an async function called on the spot
    and not awaited; its two awaits stand in no [try] either. *)
Definition mountEffect (loc : Location) : M unit :=
  status <- lift (permission loc) ;;
  if negb (is_granted status) then
    setError (Some PERMISSION_DENIED) ;;
    fetchData (by_place "Colombo")
  else
    location <- lift (position loc) ;;
    fetchData (by_coords (fst location) (snd location)).

Definition handleSearch : M unit :=
  s <- get_state ;;
  if negb (trim (inputCity s) =? "") then
    promise <- fetchData_start (by_place (trim (inputCity s))) ;;
    setInputCity "" ;;
    fetchData_rest (by_place (trim (inputCity s))) promise
  else ret tt.

End Screen.
End Tabs.

(* ------------------------------------------------------------------ *)
(** ** Vocabulary of the statements *)

(** The two requests of one attempt. *)
Definition weather_request (p : Params) (key : option string) : Request :=
  mkRequest WEATHER_API_URL p key "metric".
Definition forecast_request (p : Params) (key : option string) : Request :=
  mkRequest FORECAST_API_URL p key "metric".

(** The cells as the [catch] block and the lines after it leave them. *)
Definition failed_with (message : string) (s : AppState) : Prop :=
  loading s = false /\ error s = Some message /\
  weatherData s = JNull /\ forecastData s = None.

(** The cells as a [try] block that ran to its end leaves them. *)
Definition loaded_with (w : JsVal) (d : list JsVal) (s : AppState) : Prop :=
  loading s = false /\ error s = None /\
  weatherData s = w /\ forecastData s = Some d.


(* ------------------------------------------------------------------ *)
(** ** The cells a view depends on *)

(** Two runs that agree on everything but the input text and the
    history. *)
Definition same_cells (r r' : Run) : Prop :=
  weatherData (cur r) = weatherData (cur r') /\
  forecastData (cur r) = forecastData (cur r') /\
  loading (cur r) = loading (cur r') /\
  error (cur r) = error (cur r') /\
  refreshing (cur r) = refreshing (cur r') /\
  currentCity (cur r) = currentCity (cur r') /\
  calls r = calls r'.

(** Whether both awaits of the resolver are answered, and with which
    query it then calls [fetchData]. *)
Inductive resolves (loc : Location) : Params -> Prop :=
| resolves_position : forall found,
    permission loc = Ok granted -> position loc = Ok found ->
    resolves loc (by_coords (fst found) (snd found))
| resolves_fallback : forall st,
    permission loc = Ok st -> is_granted st = false ->
    resolves loc (by_place "Colombo").

Definition rejects (loc : Location) : Prop :=
  permission loc = Throw \/
  (permission loc = Ok granted /\ position loc = Throw).

(** [keyExtractor={(item) => item.dt_txt}] of the forecast list. *)
Definition keyExtractor (item : JsVal) : Outcome JsVal := get_prop item "dt_txt".

(* ------------------------------------------------------------------ *)
(** ** Theme selection of src/app/index.tsx *)

Definition and_then {A B : Type} (o : Outcome A) (k : A -> Outcome B)
  : Outcome B :=
  match o with
  | Ok a => k a
  | Throw => Throw
  end.

(** [weather[0].main] for the value [weather] found under
    [weatherData.weather].  Indexing undefined or null raises, and so does
    reading [main] off an element that is undefined or null (a missing
    element, an empty string, an index on a boolean or a number).  The
    first code unit of a non-empty string is a string, which has no
    [main]. *)
Definition first_main (weather : JsVal) : Outcome JsVal :=
  match weather with
  | JUndefined | JNull => Throw
  | JArr [] => Throw
  | JArr (first :: _) => get_prop first "main"
  | JObj fs =>
      match assoc "0" fs with
      | Some first => get_prop first "main"
      | None => Throw
      end
  | JStr s => if s =? "" then Throw else Ok JUndefined
  | JBool _ | JNum _ => Throw
  end.

(** [weatherData?.weather[0].main || 'Clear']: the optional chain stops at
    a null or undefined [weatherData] only. *)
Definition weatherMain (weatherData : JsVal) : Outcome JsVal :=
  match weatherData with
  | JUndefined | JNull => Ok (JStr "Clear")
  | _ =>
      and_then (get_prop weatherData "weather") (fun weather =>
      and_then (first_main weather) (fun main =>
      Ok (if truthy main then main else JStr "Clear")))
  end.

Definition Qlt_bool (a b : Q) : bool := negb (Qle_bool b a).

Section Coercions.

(** Conversions of the language the screen leaves to the engine: the
    property key a value that is not a string turns into, and the outcome
    of [now < v] and [now > v] when [v] is not a number.  They are taken
    as given; strings and numbers are handled here. *)
Variable key_of_other : JsVal -> Outcome string.
Variable lt_other : Q -> JsVal -> Outcome bool.
Variable gt_other : Q -> JsVal -> Outcome bool.

Definition property_key (v : JsVal) : Outcome string :=
  match v with
  | JStr s => Ok s
  | _ => key_of_other v
  end.

Definition now_lt (now : Q) (v : JsVal) : Outcome bool :=
  match v with
  | JNum q => Ok (Qlt_bool now q)
  | _ => lt_other now v
  end.

Definition now_gt (now : Q) (v : JsVal) : Outcome bool :=
  match v with
  | JNum q => Ok (Qlt_bool q now)
  | _ => gt_other now v
  end.

(** [isNightTime], with [now] standing for [Date.now() / 1000]. *)
Definition isNightTime (now : Q) (weatherData : JsVal) : Outcome bool :=
  if negb (truthy weatherData) then Ok false
  else
    and_then (get_prop weatherData "sys") (fun sys =>
    and_then (get_prop sys "sunrise") (fun sunrise =>
    and_then (now_lt now sunrise) (fun before =>
    if before then Ok true
    else
      and_then (get_prop weatherData "sys") (fun sys' =>
      and_then (get_prop sys' "sunset") (fun sunset =>
      now_gt now sunset))))).

(** [const gradientColors = getAdvancedGradient(
       weatherData?.weather[0].main || 'Clear', isNightTime())],
    computed by every render. *)
Definition gradientColors (now : Q) (weatherData : JsVal)
  : Outcome (option (list string)) :=
  and_then (weatherMain weatherData) (fun main =>
  and_then (isNightTime now weatherData) (fun isNight =>
  and_then (property_key main) (fun k =>
  getAdvancedGradient k isNight))).

(** One render of the component of src/app/index.tsx.  [gradientColors]
    stands in the component body, before the JSX in which
    [renderContent()] is called: when it raises the render raises and no
    branch is shown.  [Ready] says that the weather branch is taken; the
    fields that branch goes on to read are not evaluated here. *)
Definition WeatherApp (now : Q) (s : AppState) : Outcome View :=
  and_then (gradientColors now (weatherData s)) (fun _ =>
  Ok (renderContent s)).

End Coercions.

(* ------------------------------------------------------------------ *)
(** ** Lookup tables of src/unnamed/part_000 and src/app/(tabs)/index.tsx *)

Module Legacy.

(** [getWeatherIcon] is the same text in the two files. *)
Definition icons : list (string * string) :=
  [
    ("01d", "☀️"); ("01n", "🌙"); ("02d", "⛅️");
    ("02n", "☁️"); ("03d", "☁️"); ("03n", "☁️");
    ("04d", "☁️"); ("04n", "☁️"); ("09d", "🌧️");
    ("09n", "🌧️"); ("10d", "🌦️"); ("10n", "🌧️");
    ("11d", "⛈️"); ("11n", "⛈️"); ("13d", "❄️");
    ("13n", "❄️"); ("50d", "🌫️"); ("50n", "🌫️") ].

Definition icon_fallback : string := "❓".

Definition getWeatherIcon (iconCode : string) : IconValue :=
  match obj_lookup icons iconCode with
  | Own s => if negb (s =? "") then Symbol s else Symbol icon_fallback
  | Inherited name => Builtin name
  | Missing => Symbol icon_fallback
  end.

(** [getBackgroundColor] of src/unnamed/part_000. *)
Definition colors : list (string * list string) :=
  [ ("Clear", ["#47a3ff"; "#2d87e6"]);
    ("Clouds", ["#7c8ca3"; "#5b6b82"]);
    ("Rain", ["#5d6d7e"; "#4a5766"]);
    ("Drizzle", ["#a9b1b9"; "#8d969e"]);
    ("Thunderstorm", ["#3b3b3b"; "#2a2a2a"]);
    ("Snow", ["#d3d3d3"; "#b0b0b0"]);
    ("Mist", ["#a9b1b9"; "#8d969e"]) ].

Inductive ColorsValue : Type :=
| Colors (stops : list string)
| BuiltinValue (name : string).

(** [colors[weatherMain] || ['#47a3ff', '#2d87e6']]; an array is truthy
    whatever it holds. *)
Definition getBackgroundColor (weatherMain : string) : ColorsValue :=
  match obj_lookup colors weatherMain with
  | Own stops => Colors stops
  | Inherited name => BuiltinValue name
  | Missing => Colors ["#47a3ff"; "#2d87e6"]
  end.

(** [const [bgColorStart, bgColorEnd] = ...]: an array is taken apart by
    position; a function or the prototype object is not iterable and the
    destructuring raises. *)
Definition bgColors (v : ColorsValue) : Outcome (option string * option string) :=
  match v with
  | Colors stops => Ok (nth_error stops 0, nth_error stops 1)
  | BuiltinValue _ => Throw
  end.

(** [const [bgColorStart, bgColorEnd] =
       getBackgroundColor(weatherData?.weather[0].main || 'Clear')],
    computed by every render of src/unnamed/part_000; [key_of_other] is
    the property key a category that is not a string turns into. *)
Definition backgroundColors (key_of_other : JsVal -> Outcome string)
           (weatherData : JsVal) : Outcome (option string * option string) :=
  and_then (weatherMain weatherData) (fun main =>
  and_then (property_key key_of_other main) (fun k =>
  bgColors (getBackgroundColor k))).

(** One render of the component of src/unnamed/part_000: the background
    is computed in the component body, before [renderContent()]. *)
Definition WeatherApp (key_of_other : JsVal -> Outcome string)
           (s : AppState) : Outcome View :=
  and_then (backgroundColors key_of_other (weatherData s)) (fun _ =>
  Ok (renderContent s)).

End Legacy.

(* ------------------------------------------------------------------ *)
(** ** src/app/index.tsx with its awaits left open *)

(** An async function runs in stretches, from one [await] to the next,
    and the screen goes on taking events in between: the user types or
    submits, another attempt settles.  [Loop] keeps every suspended
    function as a task and lets the events arrive in any order; what a
    promise settles to arrives with the event.  [Root.after] is the
    schedule in which every task is resumed, in the order of its
    requests, before the next event of the user. *)
Module Loop.
Section Screen.

Variable API_KEY : option string.

(** A suspended function, with what its remaining text refers to. *)
Inductive Task : Type :=
| WaitsPermission
| WaitsPosition
| WaitsWeather (params : Params)
| WaitsForecast (params : Params) (weatherResponse : AxiosResponse).

(** What an awaited promise settles to. *)
Inductive Answer : Type :=
| PermissionSettles (a : Outcome PermissionStatus)
| PositionSettles (a : Outcome (Q * Q))
| RequestSettles (a : Settled).

Inductive Event : Type :=
| Mounts
| Pulls
| Types (text : string)
| Submits
| Settles (i : nat) (a : Answer).

Record Sys : Type := mkSys { run : Run; tasks : list Task }.

Definition start : Sys := mkSys startRun [].

(** A stretch that ends by calling [fetchData]: the task is added when
    [fetchData] has suspended, not when it returned at the key test. *)
Definition suspend_on (t : Task) (sys : Sys) (stretch : M (option Promise))
  : Sys :=
  match stretch (run sys) with
  | (Ok (Some _), r) => mkSys r (tasks sys ++ [t])
  | (_, r) => mkSys r (tasks sys)
  end.

Definition catch_block : M unit :=
  setError (Some Root.FETCH_FAILED) ;;
  setWeatherData JNull ;;
  setForecastData None.

Definition after_try : M unit :=
  setLoading false ;;
  setRefreshing false.

(** [loadInitialWeather] from its first [await] on. *)
Definition on_permission (a : Outcome PermissionStatus) (sys : Sys) : Sys :=
  match a with
  | Throw => sys
  | Ok status =>
      if negb (is_granted status) then
        suspend_on (WaitsWeather (by_place "Colombo")) sys
          (setError (Some Root.PERMISSION_DENIED) ;;
           Root.fetchData_start API_KEY (refreshing initialState)
                                (by_place "Colombo"))
      else mkSys (run sys) (tasks sys ++ [WaitsPosition])
  end.

(** [loadInitialWeather] from its second [await] on. *)
Definition on_position (a : Outcome (Q * Q)) (sys : Sys) : Sys :=
  match a with
  | Throw => sys
  | Ok location =>
      suspend_on (WaitsWeather (by_coords (fst location) (snd location))) sys
        (Root.fetchData_start API_KEY (refreshing initialState)
                              (by_coords (fst location) (snd location)))
  end.

(** [fetchData] from its first [await] on. *)
Definition on_weather (params : Params) (a : Settled) (sys : Sys) : Sys :=
  match a with
  | Fulfilled weatherResponse =>
      mkSys (run_from (run sys)
               (axios_send FORECAST_API_URL params API_KEY ;; ret tt))
            (tasks sys ++ [WaitsForecast params weatherResponse])
  | Rejected =>
      mkSys (run_from (run sys) (catch_block ;; after_try)) (tasks sys)
  end.

(** [fetchData] from its second [await] on. *)
Definition on_forecast (weatherResponse : AxiosResponse) (a : Settled)
           (sys : Sys) : Sys :=
  match a with
  | Fulfilled forecastResponse =>
      mkSys (run_from (run sys)
               (try_catch
                  (setWeatherData (data weatherResponse) ;;
                   daily <- lift (dailyForecasts (data forecastResponse)) ;;
                   setForecastData (Some daily))
                  catch_block ;;
                after_try))
            (tasks sys)
  | Rejected =>
      mkSys (run_from (run sys) (catch_block ;; after_try)) (tasks sys)
  end.

(** The task resumed with the answer to what it awaits; [None] when the
    answer is not of the kind the task awaits. *)
Definition resume (t : Task) (a : Answer) (sys : Sys) : option Sys :=
  match t, a with
  | WaitsPermission, PermissionSettles o => Some (on_permission o sys)
  | WaitsPosition, PositionSettles o => Some (on_position o sys)
  | WaitsWeather p, RequestSettles o => Some (on_weather p o sys)
  | WaitsForecast _ weatherResponse, RequestSettles o =>
      Some (on_forecast weatherResponse o sys)
  | _, _ => None
  end.

Definition without (i : nat) (l : list Task) : list Task :=
  (firstn i l ++ skipn (S i) l)%list.

Definition step (sys : Sys) (e : Event) : Sys :=
  match e with
  | Mounts => mkSys (run sys) (tasks sys ++ [WaitsPermission])
  | Pulls =>
      mkSys (run_from (run sys) (setRefreshing true))
            (tasks sys ++ [WaitsPermission])
  | Types text => mkSys (run_from (run sys) (setInputCity text)) (tasks sys)
  | Submits =>
      let s := cur (run sys) in
      if negb (trim (inputCity s) =? "") then
        suspend_on (WaitsWeather (by_place (trim (inputCity s)))) sys
          (suspended <- Root.fetchData_start API_KEY (refreshing s)
                          (by_place (trim (inputCity s))) ;;
           setInputCity "" ;;
           ret suspended)
      else sys
  | Settles i a =>
      match nth_error (tasks sys) i with
      | Some t =>
          match resume t a (mkSys (run sys) (without i (tasks sys))) with
          | Some sys' => sys'
          | None => sys
          end
      | None => sys
      end
  end.

Definition after (evs : list Event) : Sys := fold_left step evs start.

(** The tasks that stand inside [fetchData]. *)
Definition in_fetchData (t : Task) : bool :=
  match t with
  | WaitsWeather _ | WaitsForecast _ _ => true
  | _ => false
  end.

(** A request log (newest first) in which every request is one of the
    two of [fetchData], with the credential and metric units, and every
    forecast request comes after a current-conditions request for the
    same query. *)
Inductive log_ok : list Request -> Prop :=
| log_empty : log_ok []
| log_weather : forall p rest,
    log_ok rest -> log_ok (weather_request p API_KEY :: rest)
| log_forecast : forall p rest,
    log_ok rest -> In (weather_request p API_KEY) rest ->
    log_ok (forecast_request p API_KEY :: rest).

(** The answer [response] was delivered to a request in the course of
    [evs]. *)
Definition delivered (response : AxiosResponse) (evs : list Event) : Prop :=
  exists i, In (Settles i (RequestSettles (Fulfilled response))) evs.

(** What one event does to the screen, [sys] before and [sys'] after:
    nothing to the data; a [fetchData] that returns at the key test; a
    [fetchData] that issues its first request and suspends; a first
    answer that lets [fetchData] issue its second request; an attempt
    that ends in the [catch] block; an attempt that ends with both cells
    written. *)
Inductive effect (sys sys' : Sys) (e : Event) : Prop :=
| Frame :
    calls (run sys') = calls (run sys) ->
    weatherData (cur (run sys')) = weatherData (cur (run sys)) ->
    forecastData (cur (run sys')) = forecastData (cur (run sys)) ->
    loading (cur (run sys')) = loading (cur (run sys)) ->
    incl (tasks sys') (tasks sys ++ [WaitsPermission; WaitsPosition]) ->
    existsb in_fetchData (tasks sys') = existsb in_fetchData (tasks sys) ->
    effect sys sys' e
| Refused :
    truthy_str API_KEY = false ->
    calls (run sys') = calls (run sys) ->
    weatherData (cur (run sys')) = weatherData (cur (run sys)) ->
    forecastData (cur (run sys')) = forecastData (cur (run sys)) ->
    loading (cur (run sys')) = false ->
    incl (tasks sys') (tasks sys) ->
    effect sys sys' e
| Started : forall p base,
    truthy_str API_KEY = true ->
    calls (run sys') = weather_request p API_KEY :: calls (run sys) ->
    weatherData (cur (run sys')) = weatherData (cur (run sys)) ->
    forecastData (cur (run sys')) = forecastData (cur (run sys)) ->
    tasks sys' = (base ++ [WaitsWeather p])%list ->
    incl base (tasks sys) ->
    effect sys sys' e
| Went_on : forall p weatherResponse i base,
    In (WaitsWeather p) (tasks sys) ->
    e = Settles i (RequestSettles (Fulfilled weatherResponse)) ->
    calls (run sys') = forecast_request p API_KEY :: calls (run sys) ->
    weatherData (cur (run sys')) = weatherData (cur (run sys)) ->
    forecastData (cur (run sys')) = forecastData (cur (run sys)) ->
    tasks sys' = (base ++ [WaitsForecast p weatherResponse])%list ->
    incl base (tasks sys) ->
    effect sys sys' e
| Caught :
    calls (run sys') = calls (run sys) ->
    weatherData (cur (run sys')) = JNull ->
    forecastData (cur (run sys')) = None ->
    loading (cur (run sys')) = false ->
    error (cur (run sys')) = Some Root.FETCH_FAILED ->
    incl (tasks sys') (tasks sys) ->
    effect sys sys' e
| Stored : forall p weatherResponse forecastResponse daily i,
    In (WaitsForecast p weatherResponse) (tasks sys) ->
    e = Settles i (RequestSettles (Fulfilled forecastResponse)) ->
    dailyForecasts (data forecastResponse) = Ok daily ->
    calls (run sys') = calls (run sys) ->
    weatherData (cur (run sys')) = data weatherResponse ->
    forecastData (cur (run sys')) = Some daily ->
    loading (cur (run sys')) = false ->
    incl (tasks sys') (tasks sys) ->
    effect sys sys' e.

(** What a suspended function relies on. *)
Definition task_ok (evs : list Event) (log : list Request) (t : Task) : Prop :=
  match t with
  | WaitsPermission | WaitsPosition => True
  | WaitsWeather p =>
      truthy_str API_KEY = true /\ In (weather_request p API_KEY) log
  | WaitsForecast p weatherResponse =>
      truthy_str API_KEY = true /\ In (weather_request p API_KEY) log /\
      delivered weatherResponse evs
  end.

(** What holds of the screen after the events [evs], in whatever order
    they came. *)
Definition invariant (evs : list Event) (sys : Sys) : Prop :=
  let s := cur (run sys) in
  let log := calls (run sys) in
  log_ok log /\
  Forall (task_ok evs log) (tasks sys) /\
  (truthy_str API_KEY = false -> log = [] /\ weatherData s = JNull) /\
  (loading s = true -> log = [] \/ existsb in_fetchData (tasks sys) = true) /\
  (weatherData s = JNull /\ forecastData s = None \/
   exists weatherResponse forecastResponse daily,
     delivered weatherResponse evs /\ delivered forecastResponse evs /\
     weatherData s = data weatherResponse /\
     forecastData s = Some daily /\
     dailyForecasts (data forecastResponse) = Ok daily).

End Screen.
End Loop.

(* ------------------------------------------------------------------ *)
(** ** Sample data *)

Definition sample_item (ts : string) : JsVal :=
  JObj [ ("dt_txt", JStr ts);
         ("main", JObj [("temp", JNum (284 # 10)); ("temp_min", JNum (271 # 10));
                        ("temp_max", JNum (296 # 10))]);
         ("weather", JArr [JObj [("icon", JStr "04d"); ("main", JStr "Clouds");
                                 ("description", JStr "broken clouds")]]) ].

Definition sample_feed : list JsVal :=
  [ sample_item "2024-05-01 09:00:00"; sample_item "2024-05-01 12:00:00";
    sample_item "2024-05-01 15:00:00"; sample_item "2024-05-02 00:00:00";
    sample_item "2024-05-02 12:00:00"; sample_item "2024-05-02 21:00:00" ].

(** A current-conditions body with every field the weather branch and the
    theme selection read. *)
Definition sample_weather : JsVal :=
  JObj [ ("name", JStr "Colombo");
         ("main", JObj [("temp", JNum (284 # 10)); ("feels_like", JNum (312 # 10));
                        ("humidity", JNum 80); ("pressure", JNum 1012)]);
         ("weather", JArr [JObj [("main", JStr "Clouds");
                                 ("description", JStr "broken clouds");
                                 ("icon", JStr "04d")]]);
         ("wind", JObj [("speed", JNum (36 # 10))]);
         ("visibility", JNum 10000);
         ("sys", JObj [("sunrise", JNum 1714523400); ("sunset", JNum 1714568100)]) ].

Definition sample_forecast : JsVal := JObj [("list", JArr sample_feed)].

(** A provider that answers every request with the sample bodies. *)
Definition sample_net : Net :=
  fun _ req =>
    if url req =? WEATHER_API_URL then Fulfilled (mkResponse sample_weather)
    else Fulfilled (mkResponse sample_forecast).

(** A provider whose current-conditions answer is a 2xx with an empty
    body, which axios hands over as the empty string. *)
Definition blank_body_net : Net :=
  fun _ req =>
    if url req =? WEATHER_API_URL then Fulfilled (mkResponse (JStr ""))
    else Fulfilled (mkResponse sample_forecast).

(** A provider whose current-conditions answer is a 2xx carrying an
    error document: a truthy body without the fields of a weather body. *)
Definition error_body : JsVal :=
  JObj [("cod", JStr "404"); ("message", JStr "city not found")].

Definition error_body_net : Net :=
  fun _ req =>
    if url req =? WEATHER_API_URL then Fulfilled (mkResponse error_body)
    else Fulfilled (mkResponse sample_forecast).

(** A provider that is unreachable. *)
Definition dead_net : Net := fun _ _ => Rejected.

(** The platform refuses the permission; the platform grants it and has a
    fix; the platform grants it and the fix is rejected; the permission
    request itself is rejected. *)
Definition denied_loc : Location := mkLocation (Ok denied) (Ok (0, 0)).
Definition colombo_loc : Location :=
  mkLocation (Ok granted) (Ok (69271 # 10000, 798612 # 10000)).
Definition no_fix_loc : Location := mkLocation (Ok granted) Throw.
Definition no_answer_loc : Location := mkLocation Throw Throw.

(** The screen showing the sample body, as a completed attempt leaves
    it. *)
Definition sample_ready : AppState :=
  mkState "" (JStr "") sample_weather
          (Some [sample_item "2024-05-01 12:00:00";
                 sample_item "2024-05-02 12:00:00"])
          false None false.

(* ------------------------------------------------------------------ *)
(** ** The noon-sample step *)

Lemma isNoonItem_typed (x : JsVal) :
  isForecastItem x = true -> isNoonItem x = Ok (noon x).
Proof.
  unfold isForecastItem, isNoonItem, noon, dt_txt_of, get_prop.
  destruct x; try discriminate.
  destruct (assoc "dt_txt" fields) as [v|]; [|discriminate].
  destruct v; try discriminate. reflexivity.
Qed.

Lemma array_filter_typed (l : list JsVal) :
  Forall (fun x => isForecastItem x = true) l ->
  array_filter isNoonItem l = Ok (filter noon l).
Proof.
  induction 1 as [|x l Hx _ IH]; simpl; [reflexivity|].
  rewrite (isNoonItem_typed _ Hx), IH. reflexivity.
Qed.

Lemma filter_sublist {A : Type} (p : A -> bool) (l : list A) :
  sublist (filter p l) l.
Proof.
  induction l as [|x l IH]; simpl; [constructor|].
  destruct (p x); constructor; exact IH.
Qed.

(** Whatever the callback does, a filter that returns has kept, in order,
    exactly the entries on which the callback answered [true]. *)
Lemma array_filter_ok (cb : JsVal -> Outcome bool) (l out : list JsVal) :
  array_filter cb l = Ok out ->
  sublist out l /\
  (forall x, In x out -> In x l /\ cb x = Ok true) /\
  (forall x, In x l -> cb x = Ok true -> In x out) /\
  array_filter cb out = Ok out.
Proof.
  revert out. induction l as [|x l IH]; simpl; intros out H.
  - inversion H; subst. split; [constructor|]. simpl. repeat split; tauto.
  - destruct (cb x) as [keep|] eqn:Hx; [|discriminate].
    destruct (array_filter cb l) as [kept|] eqn:Hl; [|discriminate].
    inversion H; subst; clear H.
    destruct (IH kept eq_refl) as (Hs & Hin & Hall & Hidem).
    destruct keep.
    + repeat split.
      * constructor; exact Hs.
      * destruct H as [<-|H]; [now left | right; apply (Hin _ H)].
      * destruct H as [<-|H]; [exact Hx | apply (Hin _ H)].
      * intros y [<-|Hy] Hcb; [now left | right; apply Hall; assumption].
      * simpl. rewrite Hx, Hidem. reflexivity.
    + repeat split.
      * constructor; exact Hs.
      * right; apply (Hin _ H).
      * apply (Hin _ H).
      * intros y [<-|Hy] Hcb; [congruence | apply Hall; assumption].
      * exact Hidem.
Qed.

Lemma digit_not_colon (c : ascii) : is_digit c = true -> Ascii.eqb ":" c = false.
Proof.
  intros H. destruct (Ascii.eqb_spec ":" c) as [<-|_]; [discriminate H | reflexivity].
Qed.

Ltac eval_const_eqb :=
  repeat match goal with
  | |- context [Ascii.eqb ?a ?b] =>
      lazymatch b with
      | Ascii _ _ _ _ _ _ _ _ =>
          let v := eval vm_compute in (Ascii.eqb a b) in
          change (Ascii.eqb a b) with v
      end
  end.

Ltac peel H s c Hc :=
  destruct s as [|c s]; [discriminate H|];
  cbn [matches_layout] in H;
  apply andb_true_iff in H; destruct H as [Hc H];
  match type of Hc with
  | (if ?b then _ else _) = true =>
      let v := eval vm_compute in b in change b with v in Hc; cbv iota in Hc
  end.

(** On a timestamp in the provider's layout, containing ["12:00:00"] is the
    same as having ["12:00:00"] as time of day: the two colons of the
    pattern can only fall on the two colons of the layout. *)
Lemma noon_is_time_of_day (s : string) :
  provider_timestamp s = true ->
  str_includes s "12:00:00" = (time_of_day s =? "12:00:00").
Proof.
  unfold provider_timestamp. intros H.
  peel H s c0 H0. peel H s c1 H1. peel H s c2 H2. peel H s c3 H3.
  peel H s c4 H4. peel H s c5 H5. peel H s c6 H6. peel H s c7 H7.
  peel H s c8 H8. peel H s c9 H9. peel H s c10 H10. peel H s c11 H11.
  peel H s c12 H12. peel H s c13 H13. peel H s c14 H14. peel H s c15 H15.
  peel H s c16 H16. peel H s c17 H17. peel H s c18 H18.
  destruct s; [|discriminate H]. clear H.
  apply Ascii.eqb_eq in H4, H7, H10, H13, H16. subst c4 c7 c10 c13 c16.
  apply digit_not_colon in H0, H1, H2, H3, H5, H6, H8, H9, H11, H12, H14, H15, H17, H18.
  unfold time_of_day.
  cbn [str_includes starts_with substring String.eqb].
  rewrite !(Ascii.eqb_sym c11), !(Ascii.eqb_sym c12), !(Ascii.eqb_sym c14),
          !(Ascii.eqb_sym c15), !(Ascii.eqb_sym c17), !(Ascii.eqb_sym c18).
  rewrite ?H0, ?H1, ?H2, ?H3, ?H5, ?H6, ?H8, ?H9, ?H11, ?H12, ?H14, ?H15, ?H17, ?H18.
  eval_const_eqb.
  repeat (cbn [andb orb]; rewrite ?andb_false_r, ?andb_true_r, ?orb_false_r).
  destruct (Ascii.eqb "1" c11), (Ascii.eqb "2" c12), (Ascii.eqb "0" c14),
           (Ascii.eqb "0" c15), (Ascii.eqb "0" c17), (Ascii.eqb "0" c18);
    reflexivity.
Qed.

(* ------------------------------------------------------------------ *)
(** ** Running the handlers *)

Ltac unfold_handlers :=
  cbv beta iota delta
    [Root.fetchData Root.loadInitialWeather Root.onRefresh Root.handleSearch
     Root.handle
     Part000.fetchData Part000.loadInitialWeather Part000.onRefresh
     Part000.handleSearch
     Root.fetchData_start Root.fetchData_rest
     Part000.fetchData_start Part000.fetchData_rest
     Tabs.fetchData Tabs.mountEffect Tabs.handleSearch
     Tabs.fetchData_start Tabs.fetchData_rest
     bind ret try_catch lift commit get_state run_from fresh not_awaited
     setInputCity setCurrentCity setWeatherData setForecastData
     setLoading setError setRefreshing axios_get axios_send await].

Ltac proj := cbn [cur hist calls fst snd inputCity currentCity weatherData
                  forecastData loading error refreshing negb permission
                  position sent_as request is_granted initialState].

(** The resolver, case by case on what the platform answers. *)
Ltac by_location loc :=
  destruct loc as [[[]|] [[fix_lat fix_lon]|]]; proj.

(** [await axios.get(...)] is the request and then the wait for it. *)
Lemma axios_get_splits (net : Net) (u : string) (p : Params)
      (key : option string) (r : Run) :
  axios_get net u p key r
  = (promise <- axios_send u p key ;; await net promise) r.
Proof.
  unfold axios_get, axios_send, await, bind. proj.
  destruct (net _ _); reflexivity.
Qed.

(** [fetchData] is its start followed, when it has suspended, by its
    rest: cutting the text at the first [await] loses nothing. *)
Lemma Root_fetch_splits (key : option string) (net : Net) (b : bool)
      (p : Params) (r : Run) :
  Root.fetchData key net b p r
  = (suspended <- Root.fetchData_start key b p ;;
     match suspended with
     | Some promise => Root.fetchData_rest key net p promise
     | None => ret tt
     end) r.
Proof.
  unfold_handlers.
  destruct (negb (truthy_str key)); proj; [reflexivity|].
  destruct b; proj;
    (destruct (net _ _) as [rw|]; proj;
     [ destruct (net _ _) as [rf|]; proj;
       [ destruct (dailyForecasts (data rf)) as [d|]; proj | ] | ];
     reflexivity).
Qed.

Lemma Part000_fetch_splits (key : option string) (net : Net) (b : bool)
      (p : Params) (r : Run) :
  Part000.fetchData key net b p r
  = (promise <- Part000.fetchData_start key b p ;;
     Part000.fetchData_rest key net p promise) r.
Proof.
  unfold_handlers.
  destruct b; proj;
    (destruct (net _ _) as [rw|]; proj;
     [ destruct (net _ _) as [rf|]; proj;
       [ destruct (get_prop (data rw) "name") as [name|]; proj;
         [ destruct (dailyForecasts (data rf)) as [d|]; proj | ] | ] | ];
     reflexivity).
Qed.

Lemma Tabs_fetch_splits (net : Net) (p : Params) (r : Run) :
  Tabs.fetchData net p r
  = (promise <- Tabs.fetchData_start p ;;
     Tabs.fetchData_rest net p promise) r.
Proof.
  unfold_handlers. proj.
  destruct (net _ _) as [rw|]; proj;
    [ destruct (net _ _) as [rf|]; proj;
      [ destruct (dailyForecasts (data rf)) as [d|]; proj | ] | ];
    reflexivity.
Qed.

Section RootFacts.
Variable API_KEY : option string.
Variable net : Net.
Hypothesis no_key : truthy_str API_KEY = false.

Lemma fetch_without_key (b : bool) (p : Params) (r : Run) :
  exists s',
    Root.fetchData API_KEY net b p r = (Ok tt, mkRun s' (hist (run_from r (Root.fetchData API_KEY net b p))) (calls r)) /\
    weatherData s' = weatherData (cur r) /\
    forecastData s' = forecastData (cur r) /\
    loading s' = false /\
    error s' = Some Root.API_KEY_MISSING.
Proof.
  unfold_handlers. rewrite no_key. proj.
  eexists. split; [reflexivity|]. proj. repeat split.
Qed.

Lemma handle_without_key (e : Event) (r : Run) :
  weatherData (cur r) = JNull /\ calls r = [] ->
  weatherData (cur (run_from r (Root.handle API_KEY net e))) = JNull /\
  calls (run_from r (Root.handle API_KEY net e)) = [].
Proof.
  intros [Hw Hc]. destruct e as [loc|loc|text|]; unfold_handlers.
  - rewrite no_key. by_location loc; auto.
  - rewrite no_key. by_location loc; auto.
  - proj. auto.
  - rewrite no_key. proj.
    destruct (negb (trim (inputCity (cur r)) =? "")); proj; auto.
Qed.

(** Without a key no event ever stores weather data or issues a
    request. *)
Lemma after_without_key (evs : list Event) :
  weatherData (cur (Root.after API_KEY net evs)) = JNull /\
  calls (Root.after API_KEY net evs) = [].
Proof.
  unfold Root.after.
  assert (G : forall r, weatherData (cur r) = JNull /\ calls r = [] ->
            weatherData (cur (fold_left (fun r e => run_from r (Root.handle API_KEY net e)) evs r)) = JNull /\
            calls (fold_left (fun r e => run_from r (Root.handle API_KEY net e)) evs r) = []).
  { induction evs as [|e evs IH]; intros r Hr; simpl; [exact Hr|].
    apply IH. apply handle_without_key. exact Hr. }
  apply G. split; reflexivity.
Qed.
End RootFacts.

(** C3. With an empty or undefined credential, a fetch issued in any state
    the screen can reach returns normally, leaves the screen in the Failed
    state with the "API Key is missing..." message, and the request log is
    empty: no request was issued by this fetch or by anything before it. *)
Theorem C3_missing_key_fails_without_calls
    (API_KEY : option string) (net : Net) (evs : list Event)
    (refreshing_seen : bool) (p : Params) :
  truthy_str API_KEY = false ->
  let r := Root.after API_KEY net evs in
  let res := Root.fetchData API_KEY net refreshing_seen p r in
  fst res = Ok tt /\
  renderContent (cur (snd res)) =
    Failed "API Key is missing. Please check your .env file and restart the app." /\
  calls (snd res) = calls r /\
  calls (snd res) = [].
Proof.
  intros Hk r res.
  destruct (@after_without_key API_KEY net Hk evs) as [Hw Hc]. fold r in Hw, Hc.
  destruct (@fetch_without_key API_KEY net Hk refreshing_seen p r) as (s' & E & Ew & _ & El & Ee).
  subst res. rewrite E. proj.
  repeat split; [|congruence].
  unfold renderContent. rewrite El, Ee, Ew, Hw. reflexivity.
Qed.

Lemma C3_witness :
  truthy_str None = false /\
  renderContent
    (cur (snd (Root.fetchData None dead_net false (by_place "Kandy")
                 (Root.after None dead_net [Mount denied_loc; TypeText "Kandy"])))) =
    Failed "API Key is missing. Please check your .env file and restart the app.".
Proof.
  split; [reflexivity|].
  apply (C3_missing_key_fails_without_calls None dead_net
           [Mount denied_loc; TypeText "Kandy"] false (by_place "Kandy") eq_refl).
Defined.

(* ------------------------------------------------------------------ *)
(** ** What one attempt leaves behind *)


Lemma loaded_with_view (w : JsVal) (d : list JsVal) (s : AppState) :
  loaded_with w d s ->
  renderContent s = if truthy w then Ready w (Some d) None else Nothing.
Proof.
  intros (Hl & He & Hw & Hf). unfold renderContent.
  rewrite Hl, He, Hw, Hf. reflexivity.
Qed.

Section Attempts.
Variable API_KEY : option string.
Variable net : Net.

(** src/app/index.tsx, with a key. *)
Lemma Root_fetch_cases (b : bool) (p : Params) (r : Run) :
  truthy_str API_KEY = true ->
  let n := List.length (calls r) in
  let res := Root.fetchData API_KEY net b p r in
  fst res = Ok tt /\
  inputCity (cur (snd res)) = inputCity (cur r) /\
  match net n (weather_request p API_KEY) with
  | Rejected =>
      failed_with Root.FETCH_FAILED (cur (snd res)) /\
      calls (snd res) = weather_request p API_KEY :: calls r
  | Fulfilled rw =>
      calls (snd res) =
        forecast_request p API_KEY :: weather_request p API_KEY :: calls r /\
      match net (S n) (forecast_request p API_KEY) with
      | Rejected => failed_with Root.FETCH_FAILED (cur (snd res))
      | Fulfilled rf =>
          match dailyForecasts (data rf) with
          | Throw => failed_with Root.FETCH_FAILED (cur (snd res))
          | Ok d => loaded_with (data rw) d (cur (snd res))
          end
      end
  end.
Proof.
  intros Hk n res. subst res n. unfold weather_request, forecast_request.
  unfold_handlers. rewrite Hk. proj.
  destruct b; proj;
    (destruct (net _ (mkRequest WEATHER_API_URL p API_KEY "metric")) as [rw|]; proj;
     [ destruct (net _ (mkRequest FORECAST_API_URL p API_KEY "metric")) as [rf|]; proj;
       [ destruct (dailyForecasts (data rf)) as [d|]; proj | ] | ];
     unfold failed_with, loaded_with; proj; repeat split).
Qed.

(** src/unnamed/part_000: no key test, and the name is read off the
    body inside the [try]. *)
Lemma Part000_fetch_cases (b : bool) (p : Params) (r : Run) :
  let n := List.length (calls r) in
  let res := Part000.fetchData API_KEY net b p r in
  fst res = Ok tt /\
  inputCity (cur (snd res)) = inputCity (cur r) /\
  match net n (weather_request p API_KEY) with
  | Rejected =>
      failed_with Part000.FETCH_FAILED (cur (snd res)) /\
      calls (snd res) = weather_request p API_KEY :: calls r
  | Fulfilled rw =>
      calls (snd res) =
        forecast_request p API_KEY :: weather_request p API_KEY :: calls r /\
      match net (S n) (forecast_request p API_KEY) with
      | Rejected => failed_with Part000.FETCH_FAILED (cur (snd res))
      | Fulfilled rf =>
          match get_prop (data rw) "name" with
          | Throw => failed_with Part000.FETCH_FAILED (cur (snd res))
          | Ok name =>
              match dailyForecasts (data rf) with
              | Throw => failed_with Part000.FETCH_FAILED (cur (snd res))
              | Ok d =>
                  loaded_with (data rw) d (cur (snd res)) /\
                  currentCity (cur (snd res)) = name
              end
          end
      end
  end.
Proof.
  intros n res. subst res n. unfold weather_request, forecast_request.
  unfold_handlers. proj.
  destruct b; proj;
    (destruct (net _ (mkRequest WEATHER_API_URL p API_KEY "metric")) as [rw|]; proj;
     [ destruct (net _ (mkRequest FORECAST_API_URL p API_KEY "metric")) as [rf|]; proj;
       [ destruct (get_prop (data rw) "name") as [name|]; proj;
         [ destruct (dailyForecasts (data rf)) as [d|]; proj | ] | ] | ];
     unfold failed_with, loaded_with; proj; repeat split).
Qed.

(** src/app/(tabs)/index.tsx. *)
Lemma Tabs_fetch_cases (p : Params) (r : Run) :
  let n := List.length (calls r) in
  let res := Tabs.fetchData net p r in
  fst res = Ok tt /\
  inputCity (cur (snd res)) = inputCity (cur r) /\
  match net n (weather_request p Tabs.API_KEY) with
  | Rejected =>
      failed_with Tabs.FETCH_FAILED (cur (snd res)) /\
      calls (snd res) = weather_request p Tabs.API_KEY :: calls r
  | Fulfilled rw =>
      calls (snd res) =
        forecast_request p Tabs.API_KEY :: weather_request p Tabs.API_KEY :: calls r /\
      match net (S n) (forecast_request p Tabs.API_KEY) with
      | Rejected => failed_with Tabs.FETCH_FAILED (cur (snd res))
      | Fulfilled rf =>
          match dailyForecasts (data rf) with
          | Throw => failed_with Tabs.FETCH_FAILED (cur (snd res))
          | Ok d => loaded_with (data rw) d (cur (snd res))
          end
      end
  end.
Proof.
  intros n res. subst res n. unfold weather_request, forecast_request.
  unfold_handlers. proj.
  destruct (net _ (mkRequest WEATHER_API_URL p Tabs.API_KEY "metric")) as [rw|]; proj;
    [ destruct (net _ (mkRequest FORECAST_API_URL p Tabs.API_KEY "metric")) as [rf|]; proj;
      [ destruct (dailyForecasts (data rf)) as [d|]; proj | ] | ];
    unfold failed_with, loaded_with; proj; repeat split.
Qed.
End Attempts.

(* ------------------------------------------------------------------ *)
(** ** The claims *)

(** C1. For a forecast body whose [list] is an array of forecast items, the
    noon-sample step returns: its result is the input filtered by "the
    timestamp contains 12:00:00", a sublist of the input (nothing
    invented, duplicated or reordered) holding exactly the entries that
    pass the test; on timestamps in the provider's layout the test is
    "the time of day equals 12:00:00"; and this result is what a successful
    fetch of each of the three screens stores as the daily forecast. *)
Theorem C1_noon_sample_is_the_noon_sublist (body : JsVal) (l : list JsVal) :
  get_prop body "list" = Ok (JArr l) ->
  Forall (fun x => isForecastItem x = true) l ->
  exists out,
    dailyForecasts body = Ok out /\
    out = filter noon l /\
    sublist out l /\
    (forall x, In x out <-> In x l /\ noon x = true) /\
    (forall x ts, In x l -> dt_txt_of x = Some ts -> provider_timestamp ts = true ->
       (In x out <-> time_of_day ts = "12:00:00")) /\
    (forall key net b p r rw,
       truthy_str key = true ->
       net (List.length (calls r)) (weather_request p key) = Fulfilled rw ->
       net (S (List.length (calls r))) (forecast_request p key)
         = Fulfilled (mkResponse body) ->
       forecastData (cur (snd (Root.fetchData key net b p r))) = Some out) /\
    (forall key net b p r rw name,
       net (List.length (calls r)) (weather_request p key) = Fulfilled rw ->
       get_prop (data rw) "name" = Ok name ->
       net (S (List.length (calls r))) (forecast_request p key)
         = Fulfilled (mkResponse body) ->
       forecastData (cur (snd (Part000.fetchData key net b p r))) = Some out) /\
    (forall net p r rw,
       net (List.length (calls r)) (weather_request p Tabs.API_KEY) = Fulfilled rw ->
       net (S (List.length (calls r))) (forecast_request p Tabs.API_KEY)
         = Fulfilled (mkResponse body) ->
       forecastData (cur (snd (Tabs.fetchData net p r))) = Some out).
Proof.
  intros Hlist Htyped.
  assert (Hd : dailyForecasts body = Ok (filter noon l)).
  { unfold dailyForecasts. rewrite Hlist. simpl. apply array_filter_typed, Htyped. }
  exists (filter noon l). split; [exact Hd|]. split; [reflexivity|].
  split; [apply filter_sublist|]. split; [intro x; apply filter_In|].
  split; [|split; [|split]].
  - intros x ts Hin Hts Hwf. rewrite filter_In. unfold noon. rewrite Hts.
    rewrite (noon_is_time_of_day _ Hwf), String.eqb_eq. tauto.
  - intros key net b p r rw Hk Hw Hf.
    destruct (@Root_fetch_cases key net b p r Hk) as (_ & _ & H).
    rewrite Hw, Hf in H. cbn [data] in H. rewrite Hd in H.
    destruct H as (_ & _ & _ & _ & H). exact H.
  - intros key net b p r rw name Hw Hn Hf.
    destruct (@Part000_fetch_cases key net b p r) as (_ & _ & H).
    rewrite Hw, Hf, Hn in H. cbn [data] in H. rewrite Hd in H.
    destruct H as (_ & (_ & _ & _ & H) & _). exact H.
  - intros net p r rw Hw Hf.
    destruct (@Tabs_fetch_cases net p r) as (_ & _ & H).
    rewrite Hw, Hf in H. cbn [data] in H. rewrite Hd in H.
    destruct H as (_ & _ & _ & _ & H). exact H.
Qed.

Lemma C1_witness :
  exists out,
    dailyForecasts sample_forecast = Ok out /\
    out = [sample_item "2024-05-01 12:00:00"; sample_item "2024-05-02 12:00:00"].
Proof.
  destruct (@C1_noon_sample_is_the_noon_sublist sample_forecast sample_feed eq_refl)
    as (out & Hd & Hout & _).
  - repeat constructor.
  - exists out. split; [exact Hd | exact Hout].
Defined.

(** C10. The noon-sample filter is idempotent: on a list of forecast items
    it returns, and whenever it returns, filtering its result again returns
    that same result. *)
Theorem C10_noon_sample_idempotent (l : list JsVal) :
  (Forall (fun x => isForecastItem x = true) l ->
   exists out, js_filter (JArr l) isNoonItem = Ok out) /\
  (forall out,
     js_filter (JArr l) isNoonItem = Ok out ->
     js_filter (JArr out) isNoonItem = Ok out).
Proof.
  split.
  - intros Htyped. exists (filter noon l). apply array_filter_typed, Htyped.
  - intros out H. apply (array_filter_ok isNoonItem l H).
Qed.

Lemma C10_witness :
  js_filter (JArr [sample_item "2024-05-01 12:00:00"; sample_item "2024-05-02 12:00:00"])
            isNoonItem
  = Ok [sample_item "2024-05-01 12:00:00"; sample_item "2024-05-02 12:00:00"].
Proof.
  apply (proj2 (C10_noon_sample_idempotent sample_feed)). reflexivity.
Defined.




(** C4 fails on the code.  Permission denied, a key configured and a
    provider that answers: the resolver does fall back to Colombo (both
    requests carry [q = "Colombo"]), but [fetchData] starts with
    [setError(null)], so the advisory written just before is gone and the
    screen ends Ready with no warning.  The same holds in
    src/unnamed/part_000. *)
Theorem C4_denied_advisory_is_cleared :
  let r := run_from startRun (Root.loadInitialWeather (Some "k") sample_net denied_loc) in
  let r' := run_from startRun (Part000.loadInitialWeather (Some "k") sample_net denied_loc) in
  calls r = [ forecast_request (by_place "Colombo") (Some "k");
              weather_request (by_place "Colombo") (Some "k") ] /\
  In (Some Root.PERMISSION_DENIED) (map error (hist r)) /\
  error (cur r) = None /\
  renderContent (cur r) =
    Ready sample_weather
          (Some [sample_item "2024-05-01 12:00:00"; sample_item "2024-05-02 12:00:00"])
          None /\
  renderContent (cur r') = renderContent (cur r).
Proof.
  vm_compute. repeat split. tauto.
Qed.

(** C5 fails on the code.  [fetchData] wraps both requests and the
    noon-sample step in one [try], and the body of the current-conditions
    answer is stored without being looked at.  A 2xx answer with an empty
    body (which axios hands over as the empty string) or with an error
    document in place of the weather, next to a well-formed forecast: the
    fetch returns normally with no error recorded and the body in the
    weather cell, and the render that follows raises while it computes
    the theme ([weatherData?.weather[0].main] stops at null and undefined
    only), before [renderContent] is reached.  The failure is captured
    neither as Failed nor as a warning, in src/app/index.tsx and in
    src/unnamed/part_000. *)
Theorem C5_unchecked_body_breaks_the_render
    (key_of_other : JsVal -> Outcome string)
    (lt_other gt_other : Q -> JsVal -> Outcome bool) (now : Q) :
  let q := by_place "Kandy" in
  let blank := Root.fetchData (Some "k") blank_body_net false q startRun in
  let blank' := Part000.fetchData (Some "k") blank_body_net false q startRun in
  let other := Root.fetchData (Some "k") error_body_net false q startRun in
  let other' := Part000.fetchData (Some "k") error_body_net false q startRun in
  (fst blank = Ok tt /\
   loading (cur (snd blank)) = false /\ error (cur (snd blank)) = None /\
   weatherData (cur (snd blank)) = JStr "" /\
   WeatherApp key_of_other lt_other gt_other now (cur (snd blank)) = Throw) /\
  (fst blank' = Ok tt /\
   loading (cur (snd blank')) = false /\ error (cur (snd blank')) = None /\
   weatherData (cur (snd blank')) = JStr "" /\
   Legacy.WeatherApp key_of_other (cur (snd blank')) = Throw) /\
  (fst other = Ok tt /\
   loading (cur (snd other)) = false /\ error (cur (snd other)) = None /\
   weatherData (cur (snd other)) = error_body /\
   WeatherApp key_of_other lt_other gt_other now (cur (snd other)) = Throw) /\
  (fst other' = Ok tt /\
   loading (cur (snd other')) = false /\ error (cur (snd other')) = None /\
   weatherData (cur (snd other')) = error_body /\
   Legacy.WeatherApp key_of_other (cur (snd other')) = Throw).
Proof.
  vm_compute. repeat split.
Qed.

(** What [fetchData] itself does on every input: it never throws and it
    ends with the loading flag cleared. *)
Lemma fetch_returns (key : option string) (net : Net) (b : bool)
      (p : Params) (r : Run) :
  (fst (Root.fetchData key net b p r) = Ok tt /\
   loading (cur (snd (Root.fetchData key net b p r))) = false) /\
  (fst (Part000.fetchData key net b p r) = Ok tt /\
   loading (cur (snd (Part000.fetchData key net b p r))) = false) /\
  (fst (Tabs.fetchData net p r) = Ok tt /\
   loading (cur (snd (Tabs.fetchData net p r))) = false).
Proof.
  split; [|split].
  - unfold_handlers. destruct (negb (truthy_str key)); proj; [split; reflexivity|].
    destruct b; proj;
      (destruct (net _ _) as [rw|]; proj;
       [ destruct (net _ _) as [rf|]; proj;
         [ destruct (dailyForecasts (data rf)) as [d|]; proj | ] | ];
       split; reflexivity).
  - unfold_handlers.
    destruct b; proj;
      (destruct (net _ _) as [rw|]; proj;
       [ destruct (net _ _) as [rf|]; proj;
         [ destruct (get_prop (data rw) "name") as [name|]; proj;
           [ destruct (dailyForecasts (data rf)) as [d|]; proj | ] | ] | ];
       split; reflexivity).
  - unfold_handlers. proj.
    destruct (net _ _) as [rw|]; proj;
      [ destruct (net _ _) as [rf|]; proj;
        [ destruct (dailyForecasts (data rf)) as [d|]; proj | ] | ];
      split; reflexivity.
Qed.

(** C6 fails on the code.  Both lookups are written [table[key] ||
    fallback], and the tables are plain object literals: a key that names
    a member of Object.prototype is in neither table, yet the icon lookup
    finds the inherited built-in (a function, truthy) and hands it back
    in place of the fallback symbol, and the theme lookup finds it too and
    reads [.day] off it, which is [undefined], in place of the Clear
    palette. *)
Theorem C6_inherited_key_misses_the_fallback :
  assoc "constructor" icons = None /\
  getWeatherIcon "constructor" = Builtin "constructor" /\
  getWeatherIcon "constructor" <> Symbol icon_fallback /\
  assoc "constructor" gradients = None /\
  getAdvancedGradient "constructor" false = Ok None /\
  getAdvancedGradient "constructor" false <> getAdvancedGradient "Clear" false.
Proof.
  repeat split; try reflexivity; intro H; vm_compute in H; discriminate H.
Qed.

Lemma icons_entries_not_empty (k v : string) :
  assoc k icons = Some v -> v <> "".
Proof.
  unfold icons. cbn [assoc]. intros H.
  repeat match type of H with
         | (if ?c then _ else _) = _ =>
             destruct c; [inversion H; subst; discriminate|]
         end.
  discriminate H.
Qed.












(* ------------------------------------------------------------------ *)
(** ** Search *)

Lemma view_ext (s s' : AppState) :
  loading s = loading s' -> error s = error s' ->
  weatherData s = weatherData s' -> forecastData s = forecastData s' ->
  renderContent s = renderContent s'.
Proof.
  intros Hl He Hw Hf. unfold renderContent. rewrite Hl, He, Hw, Hf. reflexivity.
Qed.

Lemma same_cells_view (r r' : Run) :
  same_cells r r' -> renderContent (cur r) = renderContent (cur r').
Proof.
  intros (Hw & Hf & Hl & He & _). apply view_ext; assumption.
Qed.

(** A search of a non-blank text leaves the cells as [fetchData] on the
    trimmed text leaves them, and the input empty: clearing the input as
    soon as [fetchData] has suspended changes the order in which the
    states are committed, not what the cells end up holding. *)
Lemma Root_search_runs_fetch (key : option string) (net : Net) (r : Run) :
  trim (inputCity (cur r)) <> "" ->
  let res := Root.fetchData key net (refreshing (cur r))
               (by_place (trim (inputCity (cur r)))) r in
  let r' := run_from r (Root.handleSearch key net) in
  same_cells r' (snd res) /\ inputCity (cur r') = "".
Proof.
  intros Hne res r'. subst res r'. apply String.eqb_neq in Hne.
  destruct r as [s h l]. cbn [cur] in *.
  unfold same_cells. unfold_handlers. proj. rewrite Hne. proj.
  destruct (negb (truthy_str key)); proj; [repeat split|].
  destruct (refreshing s); proj;
    (destruct (net _ _) as [rw|]; proj;
     [ destruct (net _ _) as [rf|]; proj;
       [ destruct (dailyForecasts (data rf)) as [d|]; proj | ] | ];
     repeat split).
Qed.

Lemma Part000_search_runs_fetch (key : option string) (net : Net) (r : Run) :
  trim (inputCity (cur r)) <> "" ->
  let res := Part000.fetchData key net (refreshing (cur r))
               (by_place (trim (inputCity (cur r)))) r in
  let r' := run_from r (Part000.handleSearch key net) in
  same_cells r' (snd res) /\ inputCity (cur r') = "".
Proof.
  intros Hne res r'. subst res r'. apply String.eqb_neq in Hne.
  destruct r as [s h l]. cbn [cur] in *.
  unfold same_cells. unfold_handlers. proj. rewrite Hne. proj.
  destruct (refreshing s); proj;
    (destruct (net _ _) as [rw|]; proj;
     [ destruct (net _ _) as [rf|]; proj;
       [ destruct (get_prop (data rw) "name") as [name|]; proj;
         [ destruct (dailyForecasts (data rf)) as [d|]; proj | ] | ] | ];
     repeat split).
Qed.

Lemma Tabs_search_runs_fetch (net : Net) (r : Run) :
  trim (inputCity (cur r)) <> "" ->
  let res := Tabs.fetchData net (by_place (trim (inputCity (cur r)))) r in
  let r' := run_from r (Tabs.handleSearch net) in
  same_cells r' (snd res) /\ inputCity (cur r') = "".
Proof.
  intros Hne res r'. subst res r'. apply String.eqb_neq in Hne.
  destruct r as [s h l]. cbn [cur] in *.
  unfold same_cells. unfold_handlers. proj. rewrite Hne. proj.
  destruct (net _ _) as [rw|]; proj;
    [ destruct (net _ _) as [rf|]; proj;
      [ destruct (dailyForecasts (data rf)) as [d|]; proj | ] | ];
    repeat split.
Qed.

Lemma ready_view_cells (s : AppState) (w : JsVal) (d : option (list JsVal))
      (warn : option string) :
  renderContent s = Ready w d warn ->
  weatherData s = w /\ forecastData s = d /\ truthy w = true /\
  (error s = None -> warn = None).
Proof.
  unfold renderContent. destruct (loading s); [discriminate|].
  destruct (truthy (weatherData s)) eqn:T.
  - destruct (error s) as [m|]; [destruct (m =? "")|]; cbn;
      intros H; inversion H; subst; repeat split; auto; discriminate.
  - destruct (error s) as [m|]; [destruct (m =? "")|]; cbn; discriminate.
Qed.

Lemma failed_with_not_ready (message : string) (s : AppState)
      (w : JsVal) (d : option (list JsVal)) (warn : option string) :
  failed_with message s -> renderContent s <> Ready w d warn.
Proof.
  intros (_ & _ & Hw & _) H. apply ready_view_cells in H as (E & _ & T & _).
  rewrite Hw in E. subst w. discriminate T.
Qed.

(** C8. A search of a non-blank text, on the screen in any state.  With
    a credential configured: when both requests for the trimmed text are
    fulfilled, the forecast can be sampled and the current-conditions body
    is truthy, the search ends Ready on exactly that body, with the input
    emptied; and whenever the search ends Ready, that is how it came
    there, so the name under [styles.cityName] is the [name] of the
    provider's body, whatever was typed.  Without a credential the search
    requests nothing and shows no weather it did not show before, and on
    every screen reached without a credential it does not end Ready.  In
    src/unnamed/part_000 the same holds whatever the credential, for a
    body whose [name] can be read, and the [currentCity] cell holds that
    name as well. *)
Theorem C8_ready_shows_provider_name
    (key : option string) (net : Net) (r : Run) :
  trim (inputCity (cur r)) <> "" ->
  let p := by_place (trim (inputCity (cur r))) in
  let n := List.length (calls r) in
  let a := run_from r (Root.handleSearch key net) in
  let a' := run_from r (Part000.handleSearch key net) in
  (truthy_str key = true ->
   (forall rw rf dl,
      net n (weather_request p key) = Fulfilled rw ->
      net (S n) (forecast_request p key) = Fulfilled rf ->
      dailyForecasts (data rf) = Ok dl ->
      truthy (data rw) = true ->
      renderContent (cur a) = Ready (data rw) (Some dl) None /\
      inputCity (cur a) = "") /\
   (forall w d warn,
      renderContent (cur a) = Ready w d warn ->
      exists rw rf dl,
        net n (weather_request p key) = Fulfilled rw /\
        net (S n) (forecast_request p key) = Fulfilled rf /\
        dailyForecasts (data rf) = Ok dl /\
        w = data rw /\ d = Some dl /\ warn = None /\
        cityName w = get_prop (data rw) "name")) /\
  (truthy_str key = false ->
   calls a = calls r /\
   (forall w d warn,
      renderContent (cur a) = Ready w d warn -> w = weatherData (cur r)) /\
   (forall evs w d warn,
      r = Root.after key net evs -> renderContent (cur a) <> Ready w d warn)) /\
  (forall rw rf dl name,
     net n (weather_request p key) = Fulfilled rw ->
     net (S n) (forecast_request p key) = Fulfilled rf ->
     dailyForecasts (data rf) = Ok dl ->
     get_prop (data rw) "name" = Ok name ->
     truthy (data rw) = true ->
     renderContent (cur a') = Ready (data rw) (Some dl) None /\
     currentCity (cur a') = name /\
     inputCity (cur a') = "") /\
  (forall w d warn,
     renderContent (cur a') = Ready w d warn ->
     exists rw rf dl,
       net n (weather_request p key) = Fulfilled rw /\
       net (S n) (forecast_request p key) = Fulfilled rf /\
       dailyForecasts (data rf) = Ok dl /\
       w = data rw /\ d = Some dl /\ warn = None /\
       cityName w = get_prop (data rw) "name" /\
       cityName w = Ok (currentCity (cur a'))).
Proof.
  intros Hne p n a a'. subst p n a a'.
  destruct (@Root_search_runs_fetch key net r Hne) as (S & Hin).
  destruct (@Part000_search_runs_fetch key net r Hne) as (S' & Hin').
  cbv zeta in S, S', Hin, Hin'.
  pose proof (same_cells_view S) as V. pose proof (same_cells_view S') as V'.
  split; [|split; [|split]].
  - intros Hk.
    destruct (@Root_fetch_cases key net (refreshing (cur r))
                (by_place (trim (inputCity (cur r)))) r Hk) as (_ & _ & C).
    split.
    + intros rw rf dl Ew Ef Ed Et. rewrite Ew, Ef, Ed in C.
      split; [|exact Hin]. rewrite V.
      rewrite (loaded_with_view (proj2 C)), Et. reflexivity.
    + intros w d warn Hready. rewrite V in Hready.
      destruct (net _ (weather_request _ key)) as [rw|];
        [ destruct C as [_ C];
          destruct (net _ (forecast_request _ key)) as [rf|];
          [ destruct (dailyForecasts (data rf)) as [dl|] eqn:Ed | ]
        | destruct C as [C _] ];
        try (exfalso; exact (failed_with_not_ready C Hready)).
      apply ready_view_cells in Hready as (Hw & Hd & _ & Hwarn).
      destruct C as (_ & Ce & Cw & Cf).
      exists rw, rf, dl. rewrite <- Hw, <- Hd, Cw, Cf.
      repeat split; first [assumption | apply Hwarn, Ce].
  - intros Hk.
    destruct (@fetch_without_key key net Hk (refreshing (cur r))
                (by_place (trim (inputCity (cur r)))) r) as (s' & E & Ew & _).
    rewrite E in S, V. cbn [snd cur calls] in S, V.
    split; [apply S|]. split.
    + intros w d warn Hready. rewrite V in Hready.
      apply ready_view_cells in Hready as (Hw & _). congruence.
    + intros evs w d warn -> Hready. rewrite V in Hready.
      apply ready_view_cells in Hready as (Hw & _ & Ht & _).
      destruct (@after_without_key key net Hk evs) as [Hnull _].
      rewrite <- Hw, Ew, Hnull in Ht. discriminate Ht.
  - intros rw rf dl name Ew Ef Ed En Et.
    destruct (@Part000_fetch_cases key net (refreshing (cur r))
                (by_place (trim (inputCity (cur r)))) r) as (_ & _ & C).
    rewrite Ew, Ef, En, Ed in C. destruct C as (_ & C & Cc).
    split; [|split; [|exact Hin']].
    + rewrite V', (loaded_with_view C), Et. reflexivity.
    + destruct S' as (_ & _ & _ & _ & _ & Hc & _). rewrite Hc. exact Cc.
  - intros w d warn Hready. rewrite V' in Hready.
    destruct S' as (_ & _ & _ & _ & _ & Hc & _). rewrite Hc.
    destruct (@Part000_fetch_cases key net (refreshing (cur r))
                (by_place (trim (inputCity (cur r)))) r) as (_ & _ & C).
    destruct (net _ (weather_request _ key)) as [rw|];
      [ destruct C as [_ C];
        destruct (net _ (forecast_request _ key)) as [rf|];
        [ destruct (get_prop (data rw) "name") as [name|] eqn:En;
          [ destruct (dailyForecasts (data rf)) as [dl|] eqn:Ed | ] | ]
      | destruct C as [C _] ];
      try (exfalso; exact (failed_with_not_ready C Hready)).
    apply ready_view_cells in Hready as (Hw & Hd & _ & Hwarn).
    destruct C as ((_ & Ce & Cw & Cf) & Cc).
    exists rw, rf, dl. rewrite <- Hw, <- Hd, Cw, Cf. unfold cityName.
    rewrite En, Cc. repeat split; first [assumption | apply Hwarn, Ce].
Qed.

Lemma C8_witness :
  let r := Root.after (Some "k") sample_net [Mount denied_loc; TypeText " Kandy "] in
  let a := run_from r (Root.handleSearch (Some "k") sample_net) in
  calls a = [ forecast_request (by_place "Kandy") (Some "k");
              weather_request (by_place "Kandy") (Some "k");
              forecast_request (by_place "Colombo") (Some "k");
              weather_request (by_place "Colombo") (Some "k") ] /\
  renderContent (cur a) =
    Ready sample_weather
          (Some [sample_item "2024-05-01 12:00:00"; sample_item "2024-05-02 12:00:00"])
          None /\
  inputCity (cur a) = "" /\
  cityName sample_weather = Ok (JStr "Colombo") /\
  WeatherApp (fun _ => Throw) (fun _ _ => Throw) (fun _ _ => Throw)
             1714530000 (cur a)
    = Ok (renderContent (cur a)).
Proof.
  intros r a. split; [reflexivity|].
  assert (Hne : trim (inputCity (cur r)) <> "") by discriminate.
  destruct (@C8_ready_shows_provider_name (Some "k") sample_net r Hne)
    as (Hkey & _).
  destruct (proj1 (Hkey eq_refl) (mkResponse sample_weather)
              (mkResponse sample_forecast)
              [sample_item "2024-05-01 12:00:00"; sample_item "2024-05-02 12:00:00"]
              eq_refl eq_refl eq_refl eq_refl) as [Hready Hin].
  split; [exact Hready|]. split; [exact Hin|].
  split; [reflexivity | vm_compute; reflexivity].
Defined.

(* ------------------------------------------------------------------ *)
(** ** Blank input *)

Lemma drop_length (n : nat) (s : string) : (length (drop n s) <= length s)%nat.
Proof.
  revert s. induction n as [|n IH]; intros s; simpl; [lia|].
  destruct s as [|c s]; simpl; [lia|]. specialize (IH s). lia.
Qed.

(** The fuel of [trimStart] is enough: what it returns starts with no
    white space. *)
Lemma trimStart_fuel_done (fuel : nat) (s : string) :
  (length s <= fuel)%nat -> ws_prefix_len (trimStart_fuel fuel s) = 0%nat.
Proof.
  revert s. induction fuel as [|fuel IH]; intros s Hlen.
  - destruct s; [reflexivity | simpl in Hlen; lia].
  - simpl. destruct (ws_prefix_len s) as [|n] eqn:E; [exact E|].
    apply IH. destruct s as [|c s]; [discriminate E|].
    simpl in Hlen |- *. pose proof (drop_length n s). lia.
Qed.

Lemma trimStart_done (s : string) : ws_prefix_len (trimStart s) = 0%nat.
Proof. apply trimStart_fuel_done. lia. Qed.

Lemma trimStart_skips_space (s : string) :
  trimStart (String " " s) = trimStart s.
Proof. reflexivity. Qed.

Lemma trim_all_white (s : string) : all_white s = true -> trim s = "".
Proof.
  unfold all_white, trim. intros H. apply String.eqb_eq in H. rewrite H. reflexivity.
Qed.

(** C9. Submitting a search while the trimmed input is empty does nothing
    at all: the handler returns with the run unchanged, that is the same
    cells (weather data, forecast data, error, loading flag, input text),
    no state committed and no request issued.  In the three screens. *)
Theorem C9_blank_search_changes_nothing
    (key : option string) (net : Net) (r : Run) :
  trim (inputCity (cur r)) = "" ->
  Root.handleSearch key net r = (Ok tt, r) /\
  Part000.handleSearch key net r = (Ok tt, r) /\
  Tabs.handleSearch net r = (Ok tt, r).
Proof.
  intros H.
  unfold Root.handleSearch, Part000.handleSearch, Tabs.handleSearch,
         bind, get_state, ret.
  rewrite H. repeat split.
Qed.

Lemma C9_witness :
  let r := Root.after (Some "k") sample_net [Mount denied_loc; TypeText "   	 "] in
  Root.handleSearch (Some "k") sample_net r = (Ok tt, r) /\
  Part000.handleSearch (Some "k") sample_net r = (Ok tt, r) /\
  Tabs.handleSearch sample_net r = (Ok tt, r).
Proof.
  intro r. apply (C9_blank_search_changes_nothing (Some "k") sample_net r).
  reflexivity.
Defined.

(* ------------------------------------------------------------------ *)
(** ** Worked examples *)

Example trim_strips_both_ends : trim "  Galle 	" = "Galle".
Proof. reflexivity. Qed.

Example trim_keeps_inner_space : trim " Nuwara Eliya " = "Nuwara Eliya".
Proof. reflexivity. Qed.

Example icon_of_known_code : getWeatherIcon "01n" = Symbol "🌙".
Proof. reflexivity. Qed.

Example night_theme_of_rain :
  getAdvancedGradient "Rain" true =
    Ok (Some ["#2980B9"; "#6BB6FF"; "#1B4F72"; "#2E86AB"]).
Proof. reflexivity. Qed.

Example forecast_without_list_fails :
  renderContent
    (cur (snd (Root.fetchData (Some "k")
                 (fun _ req => Fulfilled (mkResponse (JObj [("cod", JStr "200")])))
                 false (by_place "Kandy") startRun)))
  = Failed Root.FETCH_FAILED.
Proof. reflexivity. Qed.

Example search_from_mounted_screen :
  kinds (run_from (fresh (cur (Root.after (Some "k") sample_net
                                 [Mount colombo_loc; TypeText "Kandy"])) [])
                  (Root.handleSearch (Some "k") sample_net))
  = [KLoading; KLoading; KLoading; KLoading; KLoading; KReady; KReady].
Proof. vm_compute. reflexivity. Qed.

(** The guard [if (!refreshing)] at work: a search submitted from the
    render in which a pull-to-refresh is still waiting for the platform
    commits no Loading state. *)
Example search_while_refresh_pending :
  let r0 := Root.after (Some "k") sample_net [Mount colombo_loc; TypeText "Kandy"] in
  let pending := run_from (fresh (cur r0) (calls r0)) (setRefreshing true) in
  kind (cur pending) = KReady /\
  kinds (run_from (fresh (cur pending) (calls pending))
                  (Root.handleSearch (Some "k") sample_net))
  = [KReady; KReady; KReady; KReady; KReady; KReady].
Proof. vm_compute. split; reflexivity. Qed.

(** Whatever the provider answers, the advisory written by the resolver on
    a denied permission does not outlive the [setError(null)] of
    [fetchData]. *)
Lemma denied_advisory_never_survives
    (key : option string) (net : Net) (r : Run) (loc : Location)
    (st : PermissionStatus) :
  truthy_str key = true ->
  permission loc = Ok st ->
  is_granted st = false ->
  let e := error (cur (run_from r (Root.loadInitialWeather key net loc))) in
  e = None \/ e = Some Root.FETCH_FAILED.
Proof.
  intros Hk Hp Hd. unfold_handlers. rewrite Hk, Hp. proj. rewrite Hd. proj.
  destruct (net _ _) as [rw|]; proj;
    [ destruct (net _ _) as [rf|]; proj;
      [ destruct (dailyForecasts (data rf)) as [d|]; proj | ] | ];
    auto.
Qed.

Example tabs_key_is_configured : truthy_str Tabs.API_KEY = true.
Proof. reflexivity. Qed.

(* ------------------------------------------------------------------ *)
(** ** One attempt, one search *)

Lemma same_cells_refl (r : Run) : same_cells r r.
Proof. unfold same_cells. repeat split. Qed.

Lemma same_cells_sym (r r' : Run) : same_cells r r' -> same_cells r' r.
Proof. unfold same_cells. intuition congruence. Qed.

Lemma same_cells_trans (r r' r'' : Run) :
  same_cells r r' -> same_cells r' r'' -> same_cells r r''.
Proof. unfold same_cells. intuition congruence. Qed.

Lemma Root_fetch_ok (key : option string) (net : Net) (b : bool)
      (p : Params) (r : Run) :
  fst (Root.fetchData key net b p r) = Ok tt.
Proof. apply (fetch_returns key net b p r). Qed.

(** X18. [fetchData] itself never throws and always ends with the loading
    flag cleared, in the three screens, whatever the credential, the
    query, the state and the answers of the provider: the promise of a
    [fetchData] that nobody awaits is never a rejected one. *)
Theorem X18_fetch_always_returns
    (key : option string) (net : Net) (b : bool) (p : Params) (r : Run) :
  (fst (Root.fetchData key net b p r) = Ok tt /\
   loading (cur (snd (Root.fetchData key net b p r))) = false) /\
  (fst (Part000.fetchData key net b p r) = Ok tt /\
   loading (cur (snd (Part000.fetchData key net b p r))) = false) /\
  (fst (Tabs.fetchData net p r) = Ok tt /\
   loading (cur (snd (Tabs.fetchData net p r))) = false).
Proof. apply fetch_returns. Qed.

(** On a blank input the three [handleSearch] return at once. *)
Lemma blank_search_skips (key : option string) (net : Net) (r : Run) :
  trim (inputCity (cur r)) = "" ->
  run_from r (Root.handleSearch key net) = r /\
  run_from r (Part000.handleSearch key net) = r /\
  run_from r (Tabs.handleSearch net) = r.
Proof.
  intros H.
  unfold Root.handleSearch, Part000.handleSearch, Tabs.handleSearch,
         run_from, bind, get_state, ret.
  rewrite H. repeat split.
Qed.



Lemma Root_fetch_same_cells (key : option string) (net : Net) (b : bool)
      (p : Params) (r r' : Run) :
  same_cells r r' ->
  same_cells (snd (Root.fetchData key net b p r))
             (snd (Root.fetchData key net b p r')).
Proof.
  destruct r as [c h l], r' as [c' h' l'].
  unfold same_cells. cbn [cur calls].
  intros (Hw & Hf & Hl & He & Hr & Hc & Hcalls). subst l'.
  unfold_handlers.
  destruct (negb (truthy_str key)); proj.
  - repeat split; first [assumption | reflexivity].
  - destruct b; proj;
      (destruct (net _ _) as [rw|]; proj;
       [ destruct (net _ _) as [rf|]; proj;
         [ destruct (dailyForecasts (data rf)) as [d|]; proj | ] | ];
       repeat split; first [assumption | reflexivity]).
Qed.

(** X7. White space around the typed text never changes the outcome of a
    search: two submissions whose inputs have the same trimmed text, made
    in states that otherwise agree, issue the same requests and leave the
    same cells; when that text is not empty both leave the input box
    empty. *)
Theorem X7_search_ignores_surrounding_space
    (key : option string) (net : Net) (r r' : Run) :
  same_cells r r' ->
  trim (inputCity (cur r)) = trim (inputCity (cur r')) ->
  let a := run_from r (Root.handleSearch key net) in
  let a' := run_from r' (Root.handleSearch key net) in
  same_cells a a' /\
  (trim (inputCity (cur r)) <> "" ->
   inputCity (cur a) = "" /\ inputCity (cur a') = "").
Proof.
  intros Hs Ht a a'. subst a a'.
  assert (Hrf : refreshing (cur r) = refreshing (cur r')) by apply Hs.
  destruct (trim (inputCity (cur r)) =? "") eqn:T.
  - apply String.eqb_eq in T.
    rewrite (proj1 (blank_search_skips key net r T)).
    rewrite Ht in T.
    rewrite (proj1 (blank_search_skips key net r' T)).
    split; [exact Hs|]. intros Hne. rewrite Ht in Hne. contradiction.
  - apply String.eqb_neq in T.
    destruct (@Root_search_runs_fetch key net r T) as (S & Hin).
    rewrite Ht in T.
    destruct (@Root_search_runs_fetch key net r' T) as (S' & Hin').
    cbv zeta in S, S', Hin, Hin'. rewrite <- Ht, <- Hrf in S'.
    split; [|intros _; split; assumption].
    apply (same_cells_trans S).
    apply (same_cells_trans
             (Root_fetch_same_cells key net (refreshing (cur r))
                (by_place (trim (inputCity (cur r)))) Hs)).
    apply same_cells_sym, S'.
Qed.

Lemma X7_witness :
  let r := run_from startRun (setInputCity " Kandy") in
  let r' := run_from startRun (setInputCity "Kandy   ") in
  same_cells (run_from r (Root.handleSearch (Some "k") sample_net))
             (run_from r' (Root.handleSearch (Some "k") sample_net)).
Proof.
  intros r r'.
  apply (@X7_search_ignores_surrounding_space (Some "k") sample_net r r').
  - unfold same_cells. repeat split.
  - reflexivity.
Defined.

(** X8. Submitting twice in a row is submitting once: a search clears the
    input, so the second submission finds it blank and does nothing; no
    request is repeated.  In the three screens. *)
Theorem X8_second_submit_does_nothing
    (key : option string) (net : Net) (r : Run) :
  run_from (run_from r (Root.handleSearch key net)) (Root.handleSearch key net)
    = run_from r (Root.handleSearch key net) /\
  run_from (run_from r (Part000.handleSearch key net)) (Part000.handleSearch key net)
    = run_from r (Part000.handleSearch key net) /\
  run_from (run_from r (Tabs.handleSearch net)) (Tabs.handleSearch net)
    = run_from r (Tabs.handleSearch net).
Proof.
  destruct (trim (inputCity (cur r)) =? "") eqn:T.
  - apply String.eqb_eq in T.
    destruct (blank_search_skips key net r T) as (E1 & E2 & E3).
    rewrite E1, E2, E3, E1, E2, E3. repeat split.
  - apply String.eqb_neq in T.
    destruct (@Root_search_runs_fetch key net r T) as (_ & H1).
    destruct (@Part000_search_runs_fetch key net r T) as (_ & H2).
    destruct (@Tabs_search_runs_fetch net r T) as (_ & H3).
    cbv zeta in H1, H2, H3.
    split; [|split].
    + apply (blank_search_skips key net). rewrite H1. reflexivity.
    + apply (blank_search_skips key net). rewrite H2. reflexivity.
    + apply (blank_search_skips key net). rewrite H3. reflexivity.
Qed.

(* ------------------------------------------------------------------ *)
(** ** The two earlier screens *)

(** X9. src/unnamed/part_000 does not test the credential: whatever it is,
    undefined and empty included, every [fetchData] issues the
    current-conditions request with it as [appid], and the forecast request
    after it exactly when the first one is fulfilled.  A missing credential
    is therefore never reported as such: the error cell ends null or with
    the generic fetch message. *)
Theorem X9_part000_does_not_test_the_key
    (key : option string) (net : Net) (b : bool) (p : Params) (r : Run) :
  let r' := snd (Part000.fetchData key net b p r) in
  appid (weather_request p key) = key /\
  match net (List.length (calls r)) (weather_request p key) with
  | Rejected => calls r' = weather_request p key :: calls r
  | Fulfilled _ =>
      calls r' = forecast_request p key :: weather_request p key :: calls r
  end /\
  (error (cur r') = None \/ error (cur r') = Some Part000.FETCH_FAILED).
Proof.
  intros r'. subst r'. split; [reflexivity|].
  destruct (@Part000_fetch_cases key net b p r) as (_ & _ & C).
  destruct (net _ (weather_request p key)) as [rw|].
  - destruct C as [Ec C]. split; [exact Ec|].
    destruct (net _ (forecast_request p key)) as [rf|];
      [destruct (get_prop (data rw) "name") as [name|];
         [destruct (dailyForecasts (data rf)) as [d|]|]|].
    + left. apply C.
    + right. apply C.
    + right. apply C.
    + right. apply C.
  - destruct C as [C Ec]. split; [exact Ec|]. right. apply C.
Qed.






(* ------------------------------------------------------------------ *)
(** ** Theme selection *)

Lemma weather_array_means_object (w : JsVal) (x : JsVal) :
  get_prop w "weather" = Ok x -> x <> JUndefined ->
  truthy w = true /\ w <> JNull /\ w <> JUndefined.
Proof.
  destruct w; cbn; intros H Hx; try discriminate H;
    try (inversion H; subst; contradiction).
  repeat split; discriminate.
Qed.

(** X11. Every render of src/app/index.tsx first computes
    [gradientColors].  With null weather data, and likewise with
    undefined, it is the day palette of Clear, whatever the time: this is
    what the first Loading screen is drawn on.  With weather data that is
    falsy but neither null nor undefined (an empty body, [false], [0]), or
    an object whose [weather] is missing or an empty list, the expression
    raises: the optional chain guards against null and undefined only. *)
Theorem X11_theme_without_usable_weather
    (key_of_other : JsVal -> Outcome string)
    (lt_other gt_other : Q -> JsVal -> Outcome bool) (now : Q) :
  let theme := gradientColors key_of_other lt_other gt_other now in
  let clear_day := Ok (Some ["#FF9A8B"; "#A8E6CF"; "#FFD3A5"; "#FD9853"]) in
  theme JNull = clear_day /\
  theme JUndefined = clear_day /\
  theme (weatherData initialState) = clear_day /\
  (forall w, truthy w = false -> w <> JNull -> w <> JUndefined ->
     theme w = Throw) /\
  (forall fields,
     assoc "weather" fields = None \/ assoc "weather" fields = Some (JArr []) ->
     theme (JObj fields) = Throw).
Proof.
  cbv zeta. split; [reflexivity|]. split; [reflexivity|]. split; [reflexivity|].
  split.
  - intros w Hf Hn Hu. unfold gradientColors, weatherMain.
    destruct w; cbn in Hf |- *; try congruence; reflexivity.
  - intros fields [H | H]; unfold gradientColors, weatherMain, get_prop;
      rewrite H; reflexivity.
Qed.

Lemma X11_witness :
  gradientColors (fun _ => Throw) (fun _ _ => Ok false) (fun _ _ => Ok false) 0
                 (JStr "") = Throw /\
  gradientColors (fun _ => Throw) (fun _ _ => Ok false) (fun _ _ => Ok false) 0
                 error_body = Throw.
Proof.
  destruct (X11_theme_without_usable_weather
              (fun _ => Throw) (fun _ _ => Ok false) (fun _ _ => Ok false) 0)
    as (_ & _ & _ & Hfalsy & Hmissing).
  split.
  - apply Hfalsy; [reflexivity | discriminate | discriminate].
  - apply Hmissing. left. reflexivity.
Defined.

Lemma Qlt_bool_true (a b : Q) : a < b -> Qlt_bool a b = true.
Proof.
  intros H. unfold Qlt_bool. destruct (Qle_bool b a) eqn:E; [|reflexivity].
  apply Qle_bool_iff in E. exfalso. apply (Qlt_not_le _ _ H E).
Qed.

Lemma Qlt_bool_false (a b : Q) : b <= a -> Qlt_bool a b = false.
Proof.
  intros H. unfold Qlt_bool. apply Qle_bool_iff in H. rewrite H. reflexivity.
Qed.

(** X12. For a current-conditions body that has a first weather entry with
    a category name and numeric sunrise and sunset, the screen is themed by
    that category, with the night palette exactly when [now] is before
    sunrise or after sunset; at sunrise and at sunset themselves it is
    day. *)
Theorem X12_night_outside_daylight
    (key_of_other : JsVal -> Outcome string)
    (lt_other gt_other : Q -> JsVal -> Outcome bool)
    (now : Q) (w first sys : JsVal) (more : list JsVal) (c : string)
    (sunrise sunset : Q) :
  get_prop w "weather" = Ok (JArr (first :: more)) ->
  get_prop first "main" = Ok (JStr c) ->
  c <> "" ->
  get_prop w "sys" = Ok sys ->
  get_prop sys "sunrise" = Ok (JNum sunrise) ->
  get_prop sys "sunset" = Ok (JNum sunset) ->
  (sunrise <= now /\ now <= sunset ->
   isNightTime lt_other gt_other now w = Ok false /\
   gradientColors key_of_other lt_other gt_other now w = getAdvancedGradient c false) /\
  (now < sunrise \/ sunset < now ->
   isNightTime lt_other gt_other now w = Ok true /\
   gradientColors key_of_other lt_other gt_other now w = getAdvancedGradient c true).
Proof.
  intros Hw Hm Hc Hs Hr Ht.
  destruct (@weather_array_means_object w _ Hw) as (Htr & Hn & Hu); [discriminate|].
  assert (Hmain : weatherMain w = Ok (JStr c)).
  { unfold weatherMain. destruct w; try congruence;
      rewrite Hw; cbn [and_then first_main]; rewrite Hm; cbn [and_then truthy];
      apply String.eqb_neq in Hc; rewrite Hc; reflexivity. }
  assert (Hnight : forall n,
            isNightTime lt_other gt_other now w = Ok n ->
            gradientColors key_of_other lt_other gt_other now w
            = getAdvancedGradient c n).
  { intros n Hn'. unfold gradientColors. rewrite Hmain, Hn'. reflexivity. }
  assert (Hval : isNightTime lt_other gt_other now w
                 = Ok (if Qlt_bool now sunrise then true else Qlt_bool sunset now)).
  { unfold isNightTime. rewrite Htr. cbn [negb].
    rewrite Hs. cbn [and_then]. rewrite Hr, Ht. cbn [and_then now_lt now_gt].
    destruct (Qlt_bool now sunrise); reflexivity. }
  split.
  - intros [H1 H2].
    rewrite (Qlt_bool_false H1), (Qlt_bool_false H2) in Hval.
    split; [exact Hval | apply Hnight, Hval].
  - intros [H | H].
    + rewrite (Qlt_bool_true H) in Hval.
      split; [exact Hval | apply Hnight, Hval].
    + rewrite (Qlt_bool_true H) in Hval.
      destruct (Qlt_bool now sunrise);
        (split; [exact Hval | apply Hnight, Hval]).
Qed.

Lemma X12_witness :
  let w := JObj [ ("weather", JArr [JObj [("main", JStr "Rain")]]);
                  ("sys", JObj [("sunrise", JNum 100); ("sunset", JNum 200)]) ] in
  gradientColors (fun _ => Throw) (fun _ _ => Throw) (fun _ _ => Throw) 200 w
    = getAdvancedGradient "Rain" false /\
  gradientColors (fun _ => Throw) (fun _ _ => Throw) (fun _ _ => Throw) 201 w
    = getAdvancedGradient "Rain" true.
Proof.
  intro w.
  destruct (@X12_night_outside_daylight (fun _ => Throw) (fun _ _ => Throw)
              (fun _ _ => Throw) 200 w (JObj [("main", JStr "Rain")])
              (JObj [("sunrise", JNum 100); ("sunset", JNum 200)]) [] "Rain"
              100 200 eq_refl eq_refl) as [Hday _];
    [discriminate | reflexivity | reflexivity | reflexivity |].
  destruct (@X12_night_outside_daylight (fun _ => Throw) (fun _ _ => Throw)
              (fun _ _ => Throw) 201 w (JObj [("main", JStr "Rain")])
              (JObj [("sunrise", JNum 100); ("sunset", JNum 200)]) [] "Rain"
              100 200 eq_refl eq_refl) as [_ Hnight];
    [discriminate | reflexivity | reflexivity | reflexivity |].
  split.
  - apply Hday. split; unfold Qle; cbn; lia.
  - apply Hnight. right. unfold Qlt; cbn; lia.
Defined.

Lemma legacy_colors_have_two_stops (k : string) (stops : list string) :
  assoc k Legacy.colors = Some stops ->
  exists a b, stops = [a; b].
Proof.
  unfold Legacy.colors. cbn [assoc]. intros H.
  repeat match type of H with
         | (if ?c then _ else _) = _ =>
             destruct c; [inversion H; subst; eexists _, _; reflexivity|]
         end.
  discriminate H.
Qed.

Lemma legacy_icons_not_empty (k v : string) :
  assoc k Legacy.icons = Some v -> v <> "".
Proof.
  unfold Legacy.icons. cbn [assoc]. intros H.
  repeat match type of H with
         | (if ?c then _ else _) = _ =>
             destruct c; [inversion H; subst; discriminate|]
         end.
  discriminate H.
Qed.

(** X13. The lookups of the two earlier versions.  For a key that is not
    the name of a member of Object.prototype, [getWeatherIcon] gives the
    table's symbol or the question-mark fallback, and the background of
    src/unnamed/part_000 always takes apart into two colour stops: the
    table's pair, or for an unknown category the pair of Clear.  For a key
    that names such a member and is in no table, the icon is the inherited
    built-in and taking the background apart raises. *)
Theorem X13_earlier_lookups (k : string) :
  (forall v, assoc k Legacy.icons = Some v -> Legacy.getWeatherIcon k = Symbol v) /\
  (forall stops, assoc k Legacy.colors = Some stops ->
     exists a b, stops = [a; b] /\
       Legacy.bgColors (Legacy.getBackgroundColor k) = Ok (Some a, Some b)) /\
  (on_object_prototype k = false ->
     (assoc k Legacy.icons = None ->
        Legacy.getWeatherIcon k = Symbol Legacy.icon_fallback) /\
     (assoc k Legacy.colors = None ->
        Legacy.getBackgroundColor k = Legacy.getBackgroundColor "Clear" /\
        Legacy.bgColors (Legacy.getBackgroundColor k)
          = Ok (Some "#47a3ff", Some "#2d87e6"))) /\
  (on_object_prototype k = true ->
     (assoc k Legacy.icons = None -> Legacy.getWeatherIcon k = Builtin k) /\
     (assoc k Legacy.colors = None ->
        Legacy.bgColors (Legacy.getBackgroundColor k) = Throw)).
Proof.
  unfold Legacy.getWeatherIcon, Legacy.getBackgroundColor, obj_lookup.
  split; [|split; [|split]].
  - intros v Hv. rewrite Hv.
    apply legacy_icons_not_empty, String.eqb_neq in Hv. rewrite Hv. reflexivity.
  - intros stops Hs. rewrite Hs.
    destruct (legacy_colors_have_two_stops _ Hs) as (a & b & ->).
    exists a, b. split; reflexivity.
  - intros Hp. split; intros H; rewrite H, Hp; [reflexivity | split; reflexivity].
  - intros Hp. split; intros H; rewrite H, Hp; reflexivity.
Qed.

Lemma X13_witness :
  Legacy.getWeatherIcon "99x" = Symbol Legacy.icon_fallback /\
  Legacy.bgColors (Legacy.getBackgroundColor "Fog")
    = Ok (Some "#47a3ff", Some "#2d87e6") /\
  Legacy.bgColors (Legacy.getBackgroundColor "valueOf") = Throw.
Proof.
  destruct (X13_earlier_lookups "99x") as (_ & _ & H1 & _).
  destruct (X13_earlier_lookups "Fog") as (_ & _ & H2 & _).
  destruct (X13_earlier_lookups "valueOf") as (_ & _ & _ & H3).
  split; [|split].
  - apply (proj1 (H1 eq_refl) eq_refl).
  - apply (proj2 (proj2 (H2 eq_refl) eq_refl)).
  - apply (proj2 (H3 eq_refl) eq_refl).
Defined.

(* ------------------------------------------------------------------ *)
(** ** Keys of the forecast list *)

Lemma sublist_map {A B : Type} (f : A -> B) (out l : list A) :
  sublist out l -> sublist (map f out) (map f l).
Proof. induction 1; cbn; constructor; assumption. Qed.

Lemma sublist_In {A : Type} (out l : list A) (x : A) :
  sublist out l -> In x out -> In x l.
Proof.
  induction 1 as [|y out l _ IH|y out l _ IH]; cbn; [tauto| |]; intuition.
Qed.

Lemma sublist_NoDup {A : Type} (out l : list A) :
  sublist out l -> NoDup l -> NoDup out.
Proof.
  induction 1 as [|y out l Hs IH|y out l Hs IH]; intros Hnd.
  - constructor.
  - inversion Hnd; subst. auto.
  - inversion Hnd; subst. constructor; [|auto].
    intros Hin. apply (sublist_In _ Hs) in Hin. contradiction.
Qed.

(** X14. The forecast list is keyed by [keyExtractor], the [dt_txt] of an
    entry.  When the entries of the provider's feed have pairwise distinct
    keys, so have the entries the noon-sample step keeps and a successful
    fetch stores: the list never shows two items under one key. *)
Theorem X14_forecast_keys_stay_distinct
    (body : JsVal) (l out : list JsVal) :
  get_prop body "list" = Ok (JArr l) ->
  dailyForecasts body = Ok out ->
  NoDup (map keyExtractor l) ->
  NoDup (map keyExtractor out) /\
  (forall key net b p r rw,
     truthy_str key = true ->
     net (List.length (calls r)) (weather_request p key) = Fulfilled rw ->
     net (S (List.length (calls r))) (forecast_request p key)
       = Fulfilled (mkResponse body) ->
     exists stored,
       forecastData (cur (snd (Root.fetchData key net b p r))) = Some stored /\
       NoDup (map keyExtractor stored)).
Proof.
  intros Hl Hd Hnd.
  assert (Hout : NoDup (map keyExtractor out)).
  { unfold dailyForecasts in Hd. rewrite Hl in Hd. cbn in Hd.
    destruct (array_filter_ok isNoonItem l Hd) as (Hs & _).
    apply (sublist_NoDup (sublist_map keyExtractor Hs) Hnd). }
  split; [exact Hout|].
  intros key net b p r rw Hk Hw Hf.
  destruct (@Root_fetch_cases key net b p r Hk) as (_ & _ & C).
  rewrite Hw, Hf in C. cbn [data] in C. rewrite Hd in C.
  exists out. split; [apply C | exact Hout].
Qed.

Lemma X14_witness :
  NoDup (map keyExtractor
             [sample_item "2024-05-01 12:00:00"; sample_item "2024-05-02 12:00:00"]).
Proof.
  apply (@X14_forecast_keys_stay_distinct sample_forecast sample_feed _
           eq_refl eq_refl).
  repeat constructor; cbn; intuition discriminate.
Defined.

(* ------------------------------------------------------------------ *)
(** ** The lookups of src/app/index.tsx, key by key *)

(** X3. Neither lookup raises.  A key of the table gives its entry.  A
    key that is in no table gives the fallback (the fallback symbol, the
    Clear palette) when it does not name a member of Object.prototype;
    when it does, the icon is the inherited built-in and the theme is
    [undefined]. *)
Theorem X3_lookups_key_by_key (k : string) (isNight : bool) :
  getAdvancedGradient k isNight <> Throw /\
  (forall v, assoc k icons = Some v -> getWeatherIcon k = Symbol v) /\
  (forall pal, assoc k gradients = Some pal ->
     getAdvancedGradient k isNight = Ok (Some (if isNight then night pal else day pal))) /\
  (on_object_prototype k = false ->
     (assoc k icons = None -> getWeatherIcon k = Symbol icon_fallback) /\
     (assoc k gradients = None ->
        getAdvancedGradient k isNight = getAdvancedGradient "Clear" isNight /\
        exists clear, assoc "Clear" gradients = Some clear /\
          getAdvancedGradient k isNight =
            Ok (Some (if isNight then night clear else day clear)))) /\
  (on_object_prototype k = true ->
     (assoc k icons = None -> getWeatherIcon k = Builtin k) /\
     (assoc k gradients = None -> getAdvancedGradient k isNight = Ok None)).
Proof.
  unfold getWeatherIcon, getAdvancedGradient, obj_lookup.
  split; [|split; [|split; [|split]]].
  - destruct (assoc k gradients); [discriminate|].
    destruct (on_object_prototype k); discriminate.
  - intros v Hv. rewrite Hv.
    apply icons_entries_not_empty, String.eqb_neq in Hv. rewrite Hv. reflexivity.
  - intros pal Hp. rewrite Hp. reflexivity.
  - intros Hp. split; intros H; rewrite H, Hp; [reflexivity|].
    split; [reflexivity|]. eexists. split; reflexivity.
  - intros Hp. split; intros H; rewrite H, Hp; reflexivity.
Qed.

Lemma X3_witness :
  getWeatherIcon "99x" = Symbol icon_fallback /\
  getAdvancedGradient "Fog" true = getAdvancedGradient "Clear" true /\
  getWeatherIcon "toString" = Builtin "toString" /\
  getAdvancedGradient "toString" true = Ok None.
Proof.
  destruct (X3_lookups_key_by_key "99x" true) as (_ & _ & _ & H1 & _).
  destruct (X3_lookups_key_by_key "Fog" true) as (_ & _ & _ & H2 & _).
  destruct (X3_lookups_key_by_key "toString" true) as (_ & _ & _ & _ & H3).
  split; [|split; [|split]].
  - apply (proj1 (H1 eq_refl) eq_refl).
  - apply (proj1 (proj2 (H2 eq_refl) eq_refl)).
  - apply (proj1 (H3 eq_refl) eq_refl).
  - apply (proj2 (H3 eq_refl) eq_refl).
Defined.

(* ------------------------------------------------------------------ *)
(** ** The location resolver *)

Lemma resolves_or_rejects (loc : Location) :
  (exists p, resolves loc p) \/ rejects loc.
Proof.
  destruct loc as [[[]|] [found|]]; unfold rejects; cbn;
    first [ left; eexists; eapply resolves_position; reflexivity
          | left; eexists; eapply resolves_fallback; reflexivity
          | right; auto ].
Qed.

Lemma resolves_unique (loc : Location) (p p' : Params) :
  resolves loc p -> resolves loc p' -> p = p'.
Proof.
  intros [f1 A1 B1 | s1 A1 B1] [f2 A2 B2 | s2 A2 B2]; try reflexivity.
  - congruence.
  - rewrite A1 in A2. inversion A2; subst s2. discriminate B2.
  - rewrite A2 in A1. inversion A1; subst s1. discriminate B1.
Qed.

Lemma resolves_not_rejects (loc : Location) (p : Params) :
  resolves loc p -> rejects loc -> False.
Proof.
  intros [f1 A1 B1 | s1 A1 B1] [Hs | [Hs Hf]]; try congruence.
  rewrite Hs in A1. inversion A1; subst s1. discriminate B1.
Qed.

Lemma Root_fetch_calls (key : option string) (net : Net) (b : bool)
      (p : Params) (r : Run) :
  exists new,
    calls (snd (Root.fetchData key net b p r)) = (new ++ calls r)%list /\
    Forall (fun req => params req = p /\ appid req = key) new /\
    (truthy_str key = true -> new <> []) /\
    (truthy_str key = false -> new = []).
Proof.
  destruct (truthy_str key) eqn:Hk.
  - destruct (@Root_fetch_cases key net b p r Hk) as (_ & _ & C).
    destruct (net _ (weather_request p key)) as [rw|].
    + destruct C as [Ec _].
      exists [forecast_request p key; weather_request p key].
      split; [exact Ec|]. split; [repeat constructor|].
      split; [discriminate | discriminate].
    + destruct C as [_ Ec].
      exists [weather_request p key].
      split; [exact Ec|]. split; [repeat constructor|].
      split; [discriminate | discriminate].
  - destruct (@fetch_without_key key net Hk b p r) as (s' & E & _).
    exists []. rewrite E. split; [reflexivity|]. split; [constructor|].
    split; [discriminate | reflexivity].
Qed.

(** The resolver that resolves is one [fetchData] on the query it settles
    on, started on the same log; the one that is rejected has done
    nothing. *)
Lemma Root_resolver_cases (key : option string) (net : Net)
      (loc : Location) (r : Run) :
  (forall p, resolves loc p ->
     exists r1,
       calls r1 = calls r /\
       run_from r (Root.loadInitialWeather key net loc)
       = snd (Root.fetchData key net false p r1)) /\
  (rejects loc -> run_from r (Root.loadInitialWeather key net loc) = r).
Proof.
  split.
  - intros p Hp. destruct Hp as [found Hs Hf | st Hs Hg];
      unfold Root.loadInitialWeather, run_from, bind, lift;
      rewrite Hs; cbn [is_granted negb]; [rewrite Hf | rewrite Hg; cbn [negb]].
    + exists r. split; reflexivity.
    + eexists (mkRun _ _ (calls r)). split; reflexivity.
  - intros [Hs | [Hs Hf]];
      unfold Root.loadInitialWeather, run_from, bind, lift;
      rewrite Hs; [reflexivity|]. cbn [is_granted negb]. rewrite Hf. reflexivity.
Qed.

(** X5. The location resolver of src/app/index.tsx asks for one query
    only, and only when the platform answers.  When the permission is
    granted and the position fix arrives, every request it issues carries
    the device position (and no place); for any other status, denied or
    undetermined, every request carries the place "Colombo" (and no
    position); in both cases it issues at least one request when a
    credential is configured and none otherwise.  When the permission
    request is rejected, or the permission is granted and the position fix
    is rejected, it issues no request and writes no cell, so a manual
    refresh then leaves the refresh indicator on.  The same requests
    are issued by a manual refresh. *)
Theorem X5_resolver_asks_for_one_query
    (key : option string) (net : Net) (loc : Location) (r : Run) :
  (forall h, h = Root.loadInitialWeather key net loc \/
             h = Root.onRefresh key net loc ->
   exists new,
     calls (run_from r h) = (new ++ calls r)%list /\
     (forall p, resolves loc p ->
        Forall (fun req => params req = p) new /\
        (truthy_str key = true -> new <> [])) /\
     (rejects loc -> new = []) /\
     (truthy_str key = false -> new = [])) /\
  (rejects loc ->
   run_from r (Root.loadInitialWeather key net loc) = r /\
   run_from r (Root.onRefresh key net loc) = run_from r (setRefreshing true) /\
   refreshing (cur (run_from r (Root.onRefresh key net loc))) = true).
Proof.
  assert (Hrefresh : forall r0,
            run_from r0 (Root.onRefresh key net loc)
            = run_from (run_from r0 (setRefreshing true))
                       (Root.loadInitialWeather key net loc)).
  { intros r0. reflexivity. }
  split.
  - intros h Hh.
    assert (E : exists r0, calls r0 = calls r /\
                  run_from r h = run_from r0 (Root.loadInitialWeather key net loc)).
    { destruct Hh as [-> | ->].
      - exists r. split; reflexivity.
      - exists (run_from r (setRefreshing true)). split; [reflexivity | apply Hrefresh]. }
    destruct E as (r0 & Hc0 & E). rewrite E.
    destruct (Root_resolver_cases key net loc r0) as [Hres Hrej].
    destruct (resolves_or_rejects loc) as [[p Hp] | Hr].
    + destruct (Hres p Hp) as (r1 & Hc & E1). rewrite E1.
      destruct (Root_fetch_calls key net false p r1)
        as (new & Ecalls & Hall & Hne & Hnil).
      exists new. rewrite Ecalls, Hc, Hc0. split; [reflexivity|].
      split; [|split; [|exact Hnil]].
      * intros p' Hp'. rewrite (resolves_unique Hp' Hp).
        split; [|exact Hne].
        eapply Forall_impl; [|exact Hall]. intros req [H _]. exact H.
      * intros Hr. destruct (resolves_not_rejects Hp Hr).
    + rewrite (Hrej Hr). exists []. rewrite Hc0.
      split; [reflexivity|]. split; [|split; reflexivity].
      intros p Hp. destruct (resolves_not_rejects Hp Hr).
  - intros Hr. split; [apply (Root_resolver_cases key net loc r), Hr|].
    rewrite Hrefresh.
    rewrite (proj2 (Root_resolver_cases key net loc _) Hr).
    split; reflexivity.
Qed.

Lemma X5_witness :
  (exists new,
     calls (run_from startRun (Root.loadInitialWeather (Some "k") sample_net
                                 (mkLocation (Ok undetermined) Throw)))
       = (new ++ calls startRun)%list /\
     Forall (fun req => params req = by_place "Colombo") new /\
     new <> []) /\
  refreshing (cur (run_from (fresh sample_ready [])
                     (Root.onRefresh (Some "k") sample_net no_fix_loc))) = true.
Proof.
  split.
  - destruct (proj1 (@X5_resolver_asks_for_one_query (Some "k") sample_net
                (mkLocation (Ok undetermined) Throw) startRun) _ (or_introl eq_refl))
      as (new & E & Hres & _).
    destruct (Hres (by_place "Colombo")) as [Hall Hne].
    + apply (@resolves_fallback _ undetermined); reflexivity.
    + exists new. split; [exact E|]. split; [exact Hall | apply Hne; reflexivity].
  - apply (proj2 (@X5_resolver_asks_for_one_query (Some "k") sample_net
                    no_fix_loc (fresh sample_ready []))).
    right. split; reflexivity.
Defined.

(* ------------------------------------------------------------------ *)
(** ** The resolver of the two earlier screens *)

(** X15. The mount effect of src/app/(tabs)/index.tsx and the resolver of
    src/unnamed/part_000 ask for one query as well: when the platform
    answers, the device position if the permission is granted and
    "Colombo" for any other status, and since neither tests the credential
    they then always issue the current-conditions request, followed by the
    forecast request or by nothing.  When the permission request or the
    position fix is rejected they do nothing at all. *)
Theorem X15_earlier_resolvers_ask_when_answered
    (key : option string) (net : Net) (loc : Location) (r : Run) :
  (forall q, resolves loc q ->
     (exists new,
        calls (run_from r (Tabs.mountEffect net loc))
          = (new ++ weather_request q Tabs.API_KEY :: calls r)%list /\
        (new = [] \/ new = [forecast_request q Tabs.API_KEY])) /\
     (exists new,
        calls (run_from r (Part000.loadInitialWeather key net loc))
          = (new ++ weather_request q key :: calls r)%list /\
        (new = [] \/ new = [forecast_request q key]))) /\
  (rejects loc ->
     run_from r (Tabs.mountEffect net loc) = r /\
     run_from r (Part000.loadInitialWeather key net loc) = r).
Proof.
  split.
  - intros q Hq. split.
    + unfold Tabs.mountEffect, run_from, bind, lift.
      destruct Hq as [found Hs Hf | st Hs Hg];
        rewrite Hs; cbn [is_granted negb]; [rewrite Hf | rewrite Hg; cbn [negb]];
        unfold setError, commit; proj;
        match goal with
        | |- context [Tabs.fetchData net ?p ?r1] =>
            destruct (@Tabs_fetch_cases net p r1) as (_ & _ & C);
            destruct (net _ (weather_request p Tabs.API_KEY)) as [rw|];
            [ destruct C as [Ec _]; exists [forecast_request p Tabs.API_KEY]
            | destruct C as [_ Ec]; exists (@nil Request) ];
            rewrite Ec; (split; [reflexivity | auto])
        end.
    + unfold Part000.loadInitialWeather, run_from, bind, lift.
      destruct Hq as [found Hs Hf | st Hs Hg];
        rewrite Hs; cbn [is_granted negb]; [rewrite Hf | rewrite Hg; cbn [negb]];
        unfold setError, commit; proj;
        match goal with
        | |- context [Part000.fetchData key net ?b ?p ?r1] =>
            destruct (@Part000_fetch_cases key net b p r1) as (_ & _ & C);
            destruct (net _ (weather_request p key)) as [rw|];
            [ destruct C as [Ec _]; exists [forecast_request p key]
            | destruct C as [_ Ec]; exists (@nil Request) ];
            rewrite Ec; (split; [reflexivity | auto])
        end.
  - intros [Hs | [Hs Hf]];
      unfold Tabs.mountEffect, Part000.loadInitialWeather, run_from, bind, lift;
      rewrite Hs; cbn [is_granted negb]; rewrite ?Hf; split; reflexivity.
Qed.

Lemma X15_witness :
  (exists new,
     calls (run_from startRun (Tabs.mountEffect dead_net colombo_loc))
       = (new ++ weather_request (by_coords (69271 # 10000) (798612 # 10000))
                                 Tabs.API_KEY :: calls startRun)%list /\
     (new = [] \/
      new = [forecast_request (by_coords (69271 # 10000) (798612 # 10000))
                              Tabs.API_KEY])) /\
  run_from startRun (Tabs.mountEffect dead_net no_answer_loc) = startRun.
Proof.
  destruct (@X15_earlier_resolvers_ask_when_answered None dead_net colombo_loc startRun)
    as [Hask _].
  destruct (@X15_earlier_resolvers_ask_when_answered None dead_net no_answer_loc startRun)
    as [_ Hrej].
  split.
  - apply (Hask (by_coords (69271 # 10000) (798612 # 10000))).
    apply (@resolves_position colombo_loc (69271 # 10000, 798612 # 10000));
      reflexivity.
  - apply Hrej. left. reflexivity.
Defined.

(* ------------------------------------------------------------------ *)
(** ** src/app/index.tsx, events in any order *)

Lemma without_incl (i : nat) (l : list Loop.Task) : incl (Loop.without i l) l.
Proof.
  unfold Loop.without. revert i.
  induction l as [|t l IH]; intros [|i]; cbn; intros x Hx; try exact Hx.
  - right. exact Hx.
  - destruct Hx as [<-|Hx]; [left; reflexivity | right; apply (IH i), Hx].
Qed.

Lemma without_keeps (f : Loop.Task -> bool) (i : nat) (l : list Loop.Task)
      (t : Loop.Task) :
  nth_error l i = Some t -> f t = false ->
  existsb f (Loop.without i l) = existsb f l.
Proof.
  unfold Loop.without. revert i.
  induction l as [|x l IH]; intros [|i]; cbn; intros Ht Hf; try discriminate Ht.
  - inversion Ht; subst x. rewrite Hf. reflexivity.
  - change (f x || existsb f (firstn i l ++ skipn (S i) l) = f x || existsb f l).
    rewrite (IH i Ht Hf). reflexivity.
Qed.

Section LoopFacts.
Variable key : option string.

Lemma Loop_after_snoc (evs : list Loop.Event) (e : Loop.Event) :
  Loop.after key (evs ++ [e]) = Loop.step key (Loop.after key evs) e.
Proof. unfold Loop.after. rewrite fold_left_app. reflexivity. Qed.

Ltac unfold_stretch :=
  cbv beta iota delta
    [Loop.suspend_on Loop.on_permission Loop.on_position Loop.on_weather
     Loop.on_forecast Loop.catch_block Loop.after_try Root.fetchData_start
     bind ret try_catch lift commit run_from
     setInputCity setWeatherData setForecastData setLoading setError
     setRefreshing axios_send];
  cbn [Loop.run Loop.tasks cur hist calls fst snd inputCity currentCity
       weatherData forecastData loading error refreshing negb is_granted
       initialState].

Ltac tasks_kept :=
  first [ apply incl_refl
        | apply without_incl
        | apply incl_appl, incl_refl
        | apply incl_appl, without_incl
        | apply incl_app;
          [ apply incl_appl; first [apply incl_refl | apply without_incl]
          | apply incl_appr; intros x [<-|[]]; cbn; auto ] ].

Ltac fetch_tasks_kept Et :=
  first [ reflexivity
        | apply (without_keeps _ _ _ Et); reflexivity
        | rewrite existsb_app; cbn [existsb Loop.in_fetchData];
          rewrite orb_false_r;
          first [ reflexivity | apply (without_keeps _ _ _ Et); reflexivity ] ].

Ltac as_frame Et :=
  cbn [Loop.run Loop.tasks];
  apply Loop.Frame; cbn [Loop.run Loop.tasks cur calls weatherData forecastData loading];
  [ reflexivity | reflexivity | reflexivity | reflexivity
  | tasks_kept | fetch_tasks_kept Et ].

(** What one event does, whatever the event and the state. *)
Lemma step_effect (sys : Loop.Sys) (e : Loop.Event) :
  Loop.effect key sys (Loop.step key sys e) e.
Proof.
  destruct sys as [[s h l] ts].
  assert (E0 : nth_error ts 0 = nth_error ts 0) by reflexivity.
  destruct e as [| |text| |i a]; cbn [Loop.step Loop.run Loop.tasks cur].
  - as_frame E0.
  - unfold_stretch. as_frame E0.
  - unfold_stretch. as_frame E0.
  - destruct (negb (trim (inputCity s) =? "")); [|as_frame E0].
    unfold_stretch. destruct (truthy_str key) eqn:Hk; cbn [negb].
    + destruct (refreshing s); unfold_stretch;
        (eapply Loop.Started with (base := ts);
         cbn [Loop.run Loop.tasks cur calls weatherData forecastData];
         [ exact Hk | reflexivity | reflexivity | reflexivity | reflexivity
         | apply incl_refl ]).
    + unfold_stretch.
      apply Loop.Refused;
        cbn [Loop.run Loop.tasks cur calls weatherData forecastData loading];
        [ exact Hk | reflexivity | reflexivity | reflexivity | reflexivity
        | apply incl_refl ].
  - destruct (nth_error ts i) as [t|] eqn:Et; [|as_frame E0].
    destruct t as [| |p|p rw], a as [[st|]|[found|]|[answer|]];
      cbn [Loop.resume]; try (as_frame E0).
    + (* the permission request is answered *)
      unfold Loop.on_permission.
      destruct st; cbn [is_granted negb].
      * as_frame Et.
      * unfold_stretch. destruct (truthy_str key) eqn:Hk; cbn [negb]; unfold_stretch.
        -- eapply Loop.Started with (base := Loop.without i ts);
             cbn [Loop.run Loop.tasks cur calls weatherData forecastData];
             [ exact Hk | reflexivity | reflexivity | reflexivity | reflexivity
             | apply without_incl ].
        -- apply Loop.Refused;
             cbn [Loop.run Loop.tasks cur calls weatherData forecastData loading];
             [ exact Hk | reflexivity | reflexivity | reflexivity | reflexivity
             | apply without_incl ].
      * unfold_stretch. destruct (truthy_str key) eqn:Hk; cbn [negb]; unfold_stretch.
        -- eapply Loop.Started with (base := Loop.without i ts);
             cbn [Loop.run Loop.tasks cur calls weatherData forecastData];
             [ exact Hk | reflexivity | reflexivity | reflexivity | reflexivity
             | apply without_incl ].
        -- apply Loop.Refused;
             cbn [Loop.run Loop.tasks cur calls weatherData forecastData loading];
             [ exact Hk | reflexivity | reflexivity | reflexivity | reflexivity
             | apply without_incl ].
    + (* the permission request is rejected *)
      unfold Loop.on_permission. as_frame Et.
    + (* the position fix arrives *)
      unfold_stretch. destruct (truthy_str key) eqn:Hk; cbn [negb]; unfold_stretch.
      * eapply Loop.Started with (base := Loop.without i ts);
          cbn [Loop.run Loop.tasks cur calls weatherData forecastData];
          [ exact Hk | reflexivity | reflexivity | reflexivity | reflexivity
          | apply without_incl ].
      * apply Loop.Refused;
          cbn [Loop.run Loop.tasks cur calls weatherData forecastData loading];
          [ exact Hk | reflexivity | reflexivity | reflexivity | reflexivity
          | apply without_incl ].
    + (* the position fix is rejected *)
      unfold Loop.on_position. as_frame Et.
    + (* the current-conditions request is fulfilled *)
      unfold_stretch.
      eapply Loop.Went_on with (p := p) (i := i) (base := Loop.without i ts);
        cbn [Loop.run Loop.tasks cur calls weatherData forecastData];
        [ apply (nth_error_In _ _ Et) | reflexivity | reflexivity | reflexivity
        | reflexivity | reflexivity | apply without_incl ].
    + (* the current-conditions request is rejected *)
      unfold_stretch.
      apply Loop.Caught;
        cbn [Loop.run Loop.tasks cur calls weatherData forecastData loading error];
        [ reflexivity | reflexivity | reflexivity | reflexivity | reflexivity
        | apply without_incl ].
    + (* the forecast request is fulfilled *)
      unfold_stretch.
      destruct (dailyForecasts (data answer)) as [daily|] eqn:Ed;
        cbn [Loop.run Loop.tasks cur hist calls fst snd weatherData
             forecastData loading error].
      * eapply Loop.Stored with (p := p) (i := i);
          cbn [Loop.run Loop.tasks cur calls weatherData forecastData loading];
          [ apply (nth_error_In _ _ Et) | reflexivity | exact Ed | reflexivity
          | reflexivity | reflexivity | reflexivity | apply without_incl ].
      * apply Loop.Caught;
          cbn [Loop.run Loop.tasks cur calls weatherData forecastData loading error];
          [ reflexivity | reflexivity | reflexivity | reflexivity | reflexivity
          | apply without_incl ].
    + (* the forecast request is rejected *)
      unfold_stretch.
      apply Loop.Caught;
        cbn [Loop.run Loop.tasks cur calls weatherData forecastData loading error];
        [ reflexivity | reflexivity | reflexivity | reflexivity | reflexivity
        | apply without_incl ].
Qed.

Lemma delivered_later (rw : AxiosResponse) (evs : list Loop.Event)
      (e : Loop.Event) :
  Loop.delivered rw evs -> Loop.delivered rw (evs ++ [e]).
Proof.
  intros [i Hi]. exists i. apply in_or_app. left. exact Hi.
Qed.

Lemma delivered_now (rw : AxiosResponse) (evs : list Loop.Event) (i : nat) :
  Loop.delivered rw
    (evs ++ [Loop.Settles i (Loop.RequestSettles (Fulfilled rw))]).
Proof.
  exists i. apply in_or_app. right. left. reflexivity.
Qed.

Lemma task_ok_later (evs : list Loop.Event) (e : Loop.Event)
      (log log' : list Request) (t : Loop.Task) :
  incl log log' ->
  Loop.task_ok key evs log t -> Loop.task_ok key (evs ++ [e]) log' t.
Proof.
  intros Hlog. destruct t as [| |p|p rw]; cbn; auto.
  - intros [Hk Hin]. split; [exact Hk | apply Hlog, Hin].
  - intros (Hk & Hin & Hd).
    split; [exact Hk|]. split; [apply Hlog, Hin | apply delivered_later, Hd].
Qed.

Lemma tasks_ok_later (evs : list Loop.Event) (e : Loop.Event)
      (log log' : list Request) (ts ts' : list Loop.Task) :
  incl log log' ->
  incl ts' (ts ++ [Loop.WaitsPermission; Loop.WaitsPosition]) ->
  Forall (Loop.task_ok key evs log) ts ->
  Forall (Loop.task_ok key (evs ++ [e]) log') ts'.
Proof.
  intros Hlog Hts Hok. apply Forall_forall. intros t Ht.
  apply Hts, in_app_or in Ht. destruct Ht as [Ht | [<- | [<- | []]]]; cbn; auto.
  apply (@task_ok_later evs e _ _ _ Hlog). revert t Ht. apply Forall_forall, Hok.
Qed.

Lemma invariant_step (evs : list Loop.Event) (e : Loop.Event)
      (sys sys' : Loop.Sys) :
  Loop.invariant key evs sys -> Loop.effect key sys sys' e ->
  Loop.invariant key (evs ++ [e]) sys'.
Proof.
  intros (Hlog & Hts & Hnk & Hload & Hdata) Heff.
  assert (Hkeep : forall ts', incl ts' (Loop.tasks sys) ->
            incl ts' (Loop.tasks sys ++ [Loop.WaitsPermission; Loop.WaitsPosition])).
  { intros ts' H. apply incl_appl, H. }
  assert (Hdata' :
            weatherData (cur (Loop.run sys)) = JNull /\
            forecastData (cur (Loop.run sys)) = None \/
            exists rw rf dl,
              Loop.delivered rw (evs ++ [e]) /\ Loop.delivered rf (evs ++ [e]) /\
              weatherData (cur (Loop.run sys)) = data rw /\
              forecastData (cur (Loop.run sys)) = Some dl /\
              dailyForecasts (data rf) = Ok dl).
  { destruct Hdata as [H | (rw & rf & dl & D1 & D2 & H)]; [left; exact H|].
    right. exists rw, rf, dl.
    split; [apply delivered_later, D1|]. split; [apply delivered_later, D2 | exact H]. }
  unfold Loop.invariant.
  destruct Heff as [Ec Ew Ef El Hin Hex
                   | Hk Ec Ew Ef El Hin
                   | p base Hk Ec Ew Ef Et Hin
                   | p rw i base Hp He Ec Ew Ef Et Hin
                   | Ec Ew Ef El Ee Hin
                   | p rw rf dl i Hp He Ed Ec Ew Ef El Hin ];
    cbv zeta; rewrite ?Ec, ?Ew, ?Ef, ?El.
  - split; [exact Hlog|].
    split; [apply (@tasks_ok_later evs e _ _ _ _ (incl_refl _) Hin Hts)|].
    split; [exact Hnk|]. split; [|exact Hdata'].
    rewrite Hex. exact Hload.
  - split; [exact Hlog|].
    split; [apply (@tasks_ok_later evs e _ _ _ _ (incl_refl _) (Hkeep _ Hin) Hts)|].
    split; [exact Hnk|]. split; [discriminate | exact Hdata'].
  - split; [apply Loop.log_weather, Hlog|].
    split; [|split; [congruence | split; [|exact Hdata']]].
    + rewrite Et. apply Forall_app. split.
      * apply (@tasks_ok_later evs e _ _ _ _ (incl_tl _ (incl_refl _)) (Hkeep _ Hin) Hts).
      * constructor; [|constructor]. cbn. split; [exact Hk | left; reflexivity].
    + intros _. right. rewrite Et, existsb_app. cbn. apply orb_true_r.
  - assert (Hreq : Loop.task_ok key evs (calls (Loop.run sys)) (Loop.WaitsWeather p)).
    { revert Hp. apply Forall_forall, Hts. }
    destruct Hreq as [Hk Hreq].
    split; [apply Loop.log_forecast; assumption|].
    split; [|split; [congruence | split; [|exact Hdata']]].
    + rewrite Et. apply Forall_app. split.
      * apply (@tasks_ok_later evs e _ _ _ _ (incl_tl _ (incl_refl _)) (Hkeep _ Hin) Hts).
      * constructor; [|constructor]. cbn.
        split; [exact Hk|]. split; [right; exact Hreq|].
        rewrite He. apply delivered_now.
    + intros _. right. rewrite Et, existsb_app. cbn. apply orb_true_r.
  - split; [exact Hlog|].
    split; [apply (@tasks_ok_later evs e _ _ _ _ (incl_refl _) (Hkeep _ Hin) Hts)|].
    split; [|split; [discriminate | left; split; reflexivity]].
    intros Hk. split; [apply (Hnk Hk) | reflexivity].
  - assert (Hreq : Loop.task_ok key evs (calls (Loop.run sys)) (Loop.WaitsForecast p rw)).
    { revert Hp. apply Forall_forall, Hts. }
    destruct Hreq as (Hk & _ & Hd).
    split; [exact Hlog|].
    split; [apply (@tasks_ok_later evs e _ _ _ _ (incl_refl _) (Hkeep _ Hin) Hts)|].
    split; [congruence|]. split; [discriminate|].
    right. exists rw, rf, dl.
    split; [apply delivered_later, Hd|].
    split; [rewrite He; apply delivered_now|]. repeat split. exact Ed.
Qed.

(** The invariant holds after any sequence of events. *)
Lemma Loop_invariant (evs : list Loop.Event) :
  Loop.invariant key evs (Loop.after key evs).
Proof.
  induction evs as [|e evs IH] using rev_ind.
  - unfold Loop.invariant. cbn.
    split; [constructor|]. split; [constructor|].
    split; [auto|]. split; [auto | left; auto].
  - rewrite Loop_after_snoc. apply (@invariant_step evs e _ _ IH), step_effect.
Qed.

Lemma log_ok_requests (log : list Request) :
  Loop.log_ok key log ->
  Forall (fun req => appid req = key /\ units req = "metric" /\
                     (url req = WEATHER_API_URL \/ url req = FORECAST_API_URL)) log.
Proof.
  induction 1 as [|p rest _ IH|p rest _ IH _]; constructor; cbn; auto.
Qed.

End LoopFacts.

(** X1. Whatever the user and the platform do, and in whatever order the
    awaited promises settle, every request issued so far goes to one of
    the two endpoints with the configured credential and metric units,
    and every forecast request comes after a current-conditions request
    for the same query.  (With attempts overlapping the two need not be
    neighbours in the log.) *)
Theorem X1_requests_follow_the_code
    (key : option string) (evs : list Loop.Event) :
  let log := calls (Loop.run (Loop.after key evs)) in
  Loop.log_ok key log /\
  Forall (fun req => appid req = key /\ units req = "metric" /\
                     (url req = WEATHER_API_URL \/ url req = FORECAST_API_URL)) log.
Proof.
  cbv zeta. pose proof (Loop_invariant key evs) as (Hlog & _).
  split; [exact Hlog | apply (log_ok_requests Hlog)].
Qed.



(** X4. The spinner is on only before the first request or while an
    attempt is under way: whenever the loading flag is set, either no
    request was issued yet or some [fetchData] is suspended on one of its
    two requests.  (A resolver that is rejected during a refresh stops
    before [fetchData]; it leaves the refresh indicator on, not the
    spinner.) *)
Theorem X4_spinner_means_pending
    (key : option string) (evs : list Loop.Event) :
  let sys := Loop.after key evs in
  loading (cur (Loop.run sys)) = true ->
  calls (Loop.run sys) = [] \/
  existsb Loop.in_fetchData (Loop.tasks sys) = true.
Proof.
  cbv zeta. pose proof (Loop_invariant key evs) as (_ & _ & _ & Hload & _).
  exact Hload.
Qed.

Lemma X4_witness :
  let sys := Loop.after (Some "k")
               [Loop.Mounts; Loop.Settles 0 (Loop.PermissionSettles (Ok denied));
                Loop.Types "Kandy"; Loop.Submits] in
  Loop.tasks sys = [Loop.WaitsWeather (by_place "Colombo");
                    Loop.WaitsWeather (by_place "Kandy")] /\
  (calls (Loop.run sys) = [] \/
   existsb Loop.in_fetchData (Loop.tasks sys) = true).
Proof.
  intro sys. split; [reflexivity|].
  apply (X4_spinner_means_pending (Some "k")
           [Loop.Mounts; Loop.Settles 0 (Loop.PermissionSettles (Ok denied));
            Loop.Types "Kandy"; Loop.Submits]).
  reflexivity.
Defined.

(** X16. Without a credential nothing is ever requested, in whatever order
    the events come: the log stays empty, the weather cell stays null, and
    no [fetchData] is ever left suspended. *)
Theorem X16_no_key_no_request_in_any_order
    (key : option string) (evs : list Loop.Event) :
  truthy_str key = false ->
  let sys := Loop.after key evs in
  calls (Loop.run sys) = [] /\
  weatherData (cur (Loop.run sys)) = JNull /\
  existsb Loop.in_fetchData (Loop.tasks sys) = false.
Proof.
  intros Hk. cbv zeta.
  pose proof (Loop_invariant key evs) as (_ & Hts & Hnk & _).
  cbv zeta in Hts, Hnk.
  split; [apply (Hnk Hk)|]. split; [apply (Hnk Hk)|].
  destruct (existsb Loop.in_fetchData (Loop.tasks (Loop.after key evs))) eqn:E;
    [|reflexivity].
  apply existsb_exists in E as (t & Hin & Hf).
  assert (Hok := proj1 (Forall_forall _ _) Hts t Hin).
  destruct t; cbn in Hf, Hok; try discriminate Hf;
    destruct Hok as [Hk' _]; congruence.
Qed.

Lemma X16_witness :
  let sys := Loop.after None
               [Loop.Mounts; Loop.Settles 0 (Loop.PermissionSettles (Ok denied));
                Loop.Types "Kandy"; Loop.Submits] in
  error (cur (Loop.run sys)) = Some Root.API_KEY_MISSING /\
  calls (Loop.run sys) = [] /\
  weatherData (cur (Loop.run sys)) = JNull /\
  existsb Loop.in_fetchData (Loop.tasks sys) = false.
Proof.
  intro sys. split; [reflexivity|].
  apply (X16_no_key_no_request_in_any_order None
           [Loop.Mounts; Loop.Settles 0 (Loop.PermissionSettles (Ok denied));
            Loop.Types "Kandy"; Loop.Submits]).
  reflexivity.
Defined.

(** Two searches overlapping: the first is still waiting for its forecast
    when the second is rejected, and is then fulfilled.  The log is not
    attempt by attempt, and the screen ends on the weather of the first
    search under the error of the second. *)
Example overlapping_searches :
  let sys := Loop.after (Some "k")
               [Loop.Types "Galle"; Loop.Submits;
                Loop.Settles 0 (Loop.RequestSettles (Fulfilled (mkResponse sample_weather)));
                Loop.Types "Kandy"; Loop.Submits;
                Loop.Settles 1 (Loop.RequestSettles Rejected);
                Loop.Settles 0 (Loop.RequestSettles (Fulfilled (mkResponse sample_forecast)))] in
  calls (Loop.run sys) =
    [ weather_request (by_place "Kandy") (Some "k");
      forecast_request (by_place "Galle") (Some "k");
      weather_request (by_place "Galle") (Some "k") ] /\
  Loop.tasks sys = [] /\
  renderContent (cur (Loop.run sys)) =
    Ready sample_weather
          (Some [sample_item "2024-05-01 12:00:00"; sample_item "2024-05-02 12:00:00"])
          (Some Root.FETCH_FAILED).
Proof. vm_compute. repeat split. Qed.

(** A refresh whose position fix is rejected: the refresh indicator stays
    on. *)
Example refresh_without_fix :
  let sys := Loop.after (Some "k")
               [Loop.Pulls; Loop.Settles 0 (Loop.PermissionSettles (Ok granted));
                Loop.Settles 0 (Loop.PositionSettles Throw)] in
  Loop.tasks sys = [] /\ refreshing (cur (Loop.run sys)) = true.
Proof. vm_compute. repeat split. Qed.

(* ------------------------------------------------------------------ *)
(** ** Handlers run to their end are one of the orders *)

Section Schedules.
Variable key : option string.
Variable net : Net.

Lemma schedule_then (pre : list Loop.Event) (sys mid target : Loop.Sys) :
  fold_left (Loop.step key) pre sys = mid ->
  (exists levs, fold_left (Loop.step key) levs mid = target) ->
  exists levs, fold_left (Loop.step key) levs sys = target.
Proof.
  intros Hpre [levs Hlevs]. exists (pre ++ levs)%list.
  rewrite fold_left_app, Hpre. exact Hlevs.
Qed.

Ltac unfold_loop_once :=
  cbn [fold_left Loop.step Loop.resume nth_error Loop.run Loop.tasks];
  cbv beta iota delta
    [Loop.suspend_on Loop.on_permission Loop.on_position Loop.on_weather
     Loop.on_forecast Loop.catch_block Loop.after_try Loop.without
     Root.fetchData_start
     bind ret try_catch lift commit run_from
     setInputCity setWeatherData setForecastData setLoading setError
     setRefreshing axios_send];
  cbn [Loop.run Loop.tasks cur hist calls fst snd inputCity currentCity
       weatherData forecastData loading error refreshing negb is_granted
       initialState firstn skipn app].

Ltac unfold_loop := repeat (progress unfold_loop_once).

(** The rest of [fetchData], run to its end against [net], is the task
    resumed with the answers [net] gives. *)
Lemma rest_is_schedule (p : Params) (s : AppState) (h : list AppState)
      (l : list Request) :
  exists levs,
    fold_left (Loop.step key) levs
      (Loop.mkSys (mkRun s h (weather_request p key :: l)) [Loop.WaitsWeather p])
    = Loop.mkSys
        (run_from (mkRun s h (weather_request p key :: l))
           (Root.fetchData_rest key net p
              (mkPromise (List.length l) (weather_request p key))))
        [].
Proof.
  unfold weather_request. unfold_handlers. proj.
  destruct (net (List.length l) (mkRequest WEATHER_API_URL p key "metric"))
    as [rw|] eqn:Ew; proj.
  - cbn [List.length].
    destruct (net (S (List.length l)) (mkRequest FORECAST_API_URL p key "metric"))
      as [rf|] eqn:Ef; proj.
    + exists [Loop.Settles 0 (Loop.RequestSettles (Fulfilled rw));
              Loop.Settles 0 (Loop.RequestSettles (Fulfilled rf))].
      unfold_loop. destruct (dailyForecasts (data rf)); reflexivity.
    + exists [Loop.Settles 0 (Loop.RequestSettles (Fulfilled rw));
              Loop.Settles 0 (Loop.RequestSettles Rejected)].
      unfold_loop. reflexivity.
  - exists [Loop.Settles 0 (Loop.RequestSettles Rejected)].
    unfold_loop. reflexivity.
Qed.

Ltac then_rest :=
  match goal with
  | |- exists levs,
         fold_left _ levs (Loop.mkSys (mkRun ?s ?h (_ :: ?l)) [Loop.WaitsWeather ?p])
         = _ =>
      exact (rest_is_schedule p s h l)
  end.

Ltac run_schedule steps :=
  match goal with
  | |- exists levs, fold_left _ levs ?sys = _ =>
      apply (@schedule_then steps sys (fold_left (Loop.step key) steps sys));
      [reflexivity|]
  end;
  unfold_loop; unfold_handlers; proj.

Ltac done_or_rest :=
  first [ exists []; reflexivity
        | destruct (truthy_str key); cbn [negb]; unfold_loop; proj;
          [ then_rest | exists []; reflexivity ] ].

(** Each handler of src/app/index.tsx run to its end is a sequence of
    steps of the loop that leaves no task behind. *)
Lemma handle_is_schedule (e : Event) (r : Run) :
  exists levs,
    fold_left (Loop.step key) levs (Loop.mkSys r [])
    = Loop.mkSys (run_from r (Root.handle key net e)) [].
Proof.
  destruct r as [s h l].
  destruct e as [loc|loc|text|].
  - destruct loc as [[[]|] [found|]].
    + run_schedule [Loop.Mounts;
                    Loop.Settles 0 (Loop.PermissionSettles (Ok granted));
                    Loop.Settles 0 (Loop.PositionSettles (Ok found))].
      done_or_rest.
    + run_schedule [Loop.Mounts;
                    Loop.Settles 0 (Loop.PermissionSettles (Ok granted));
                    Loop.Settles 0 (Loop.PositionSettles Throw)].
      done_or_rest.
    + run_schedule [Loop.Mounts;
                    Loop.Settles 0 (Loop.PermissionSettles (Ok denied))].
      done_or_rest.
    + run_schedule [Loop.Mounts;
                    Loop.Settles 0 (Loop.PermissionSettles (Ok denied))].
      done_or_rest.
    + run_schedule [Loop.Mounts;
                    Loop.Settles 0 (Loop.PermissionSettles (Ok undetermined))].
      done_or_rest.
    + run_schedule [Loop.Mounts;
                    Loop.Settles 0 (Loop.PermissionSettles (Ok undetermined))].
      done_or_rest.
    + run_schedule [Loop.Mounts; Loop.Settles 0 (Loop.PermissionSettles Throw)].
      done_or_rest.
    + run_schedule [Loop.Mounts; Loop.Settles 0 (Loop.PermissionSettles Throw)].
      done_or_rest.
  - destruct loc as [[[]|] [found|]].
    + run_schedule [Loop.Pulls;
                    Loop.Settles 0 (Loop.PermissionSettles (Ok granted));
                    Loop.Settles 0 (Loop.PositionSettles (Ok found))].
      done_or_rest.
    + run_schedule [Loop.Pulls;
                    Loop.Settles 0 (Loop.PermissionSettles (Ok granted));
                    Loop.Settles 0 (Loop.PositionSettles Throw)].
      done_or_rest.
    + run_schedule [Loop.Pulls;
                    Loop.Settles 0 (Loop.PermissionSettles (Ok denied))].
      done_or_rest.
    + run_schedule [Loop.Pulls;
                    Loop.Settles 0 (Loop.PermissionSettles (Ok denied))].
      done_or_rest.
    + run_schedule [Loop.Pulls;
                    Loop.Settles 0 (Loop.PermissionSettles (Ok undetermined))].
      done_or_rest.
    + run_schedule [Loop.Pulls;
                    Loop.Settles 0 (Loop.PermissionSettles (Ok undetermined))].
      done_or_rest.
    + run_schedule [Loop.Pulls; Loop.Settles 0 (Loop.PermissionSettles Throw)].
      done_or_rest.
    + run_schedule [Loop.Pulls; Loop.Settles 0 (Loop.PermissionSettles Throw)].
      done_or_rest.
  - exists [Loop.Types text]. reflexivity.
  - destruct (trim (inputCity s) =? "") eqn:T.
    + exists []. unfold_handlers. proj. rewrite T. reflexivity.
    + run_schedule [Loop.Submits]. rewrite T. cbn [negb].
      unfold_loop. proj.
      destruct (truthy_str key); cbn [negb]; unfold_loop; proj;
        [ destruct (refreshing s); cbn [negb]; unfold_loop; proj; then_rest
        | exists []; reflexivity ].
Qed.

Lemma after_is_schedule (evs : list Event) (r : Run) :
  exists levs,
    fold_left (Loop.step key) levs (Loop.mkSys r [])
    = Loop.mkSys
        (fold_left (fun r e => run_from r (Root.handle key net e)) evs r) [].
Proof.
  revert r. induction evs as [|e evs IH]; intros r; cbn [fold_left].
  - exists []. reflexivity.
  - destruct (handle_is_schedule e r) as [pre Hpre].
    apply (@schedule_then pre _ _ _ Hpre). apply IH.
Qed.

End Schedules.

(** X17. Running every handler of src/app/index.tsx to its end before
    the next event arrives, against a provider that answers as [net]
    does, is one of the orders of the event loop: there is a sequence of
    steps, each await answered as the platform and [net] answer it, that
    leaves the same cells, the same committed states and the same request
    log, and no task behind.  What holds in every order holds of
    [Root.after]. *)
Theorem X17_handlers_to_their_end_is_an_order
    (key : option string) (net : Net) (evs : list Event) :
  exists levs,
    Loop.after key levs = Loop.mkSys (Root.after key net evs) [].
Proof.
  apply (after_is_schedule key net evs startRun).
Qed.

